(** * GPIO-controlled power domain (drivers/power_domain/power_domain_gpio.c)

    A shallow embedding of the driver's two functions, [pd_gpio_pm_action] and
    [pd_gpio_init], as state-passing programs over a record [world] that holds
    what the C code reads and writes: the kernel clock, the calling context,
    the enable pin, the driver data [next_boot], a time-stamped trace of
    every call with which the driver sleeps, drives the pin, notifies its
    dependents or logs, and a journal of its clock reads and of its writes to
    the driver data. *)

From Stdlib Require Import ZArith List String Bool Lia.
Import ListNotations.
Open Scope Z_scope.

(** ** Types of the kernel interface *)

(** [enum pm_device_action].  A C enum variable can hold any integer, and the
    driver's [switch] has a [default] arm for it: [PM_DEVICE_ACTION_INVALID]
    stands for every value that is none of the four enumerators. *)
Inductive pm_device_action : Type :=
| PM_DEVICE_ACTION_SUSPEND
| PM_DEVICE_ACTION_RESUME
| PM_DEVICE_ACTION_TURN_OFF
| PM_DEVICE_ACTION_TURN_ON
| PM_DEVICE_ACTION_INVALID (raw : Z).

Definition recognized (a : pm_device_action) : bool :=
  match a with
  | PM_DEVICE_ACTION_INVALID _ => false
  | _ => true
  end.

(** [k_timeout_t]: a number of ticks from now ([K_TICKS]) or an absolute
    uptime in ticks ([K_TIMEOUT_ABS_TICKS]). *)
Inductive k_timeout_t : Type :=
| K_TICKS (t : Z)
| K_TIMEOUT_ABS_TICKS (t : Z).

(** A device is referred to by its name ([dev->name]). *)
Definition device_ref := string.

(** [struct gpio_dt_spec] *)
Record gpio_dt_spec : Type := {
  port : device_ref;
  pin : Z;
  dt_flags : Z
}.

(** [struct pd_gpio_config] *)
Record pd_gpio_config : Type := {
  enable : gpio_dt_spec;
  startup_delay_us : Z;      (* uint32_t *)
  off_on_delay_us : Z;       (* uint32_t *)
  enable_high_drive : bool
}.

(** [struct pd_gpio_data] *)
Record pd_gpio_data : Type := {
  next_boot : k_timeout_t
}.

(** The parts of [struct device] the driver uses.  [pm_domain] is
    [dev->pm->domain] ([None] for a null pointer); [children] are the devices
    this domain supports, in devicetree order. *)
Record device : Type := {
  name : string;
  config : pd_gpio_config;
  pm_domain : option device_ref;
  children : list device_ref
}.

(** ** Observable calls *)

Inductive gpio_call : Type :=
| GpioConfigure (flags : Z)     (* gpio_pin_configure_dt(spec, flags) *)
| GpioSet (value : Z).          (* gpio_pin_set_dt(spec, value) *)

Inductive log_level : Type := LOG_LEVEL_ERR | LOG_LEVEL_INF | LOG_LEVEL_DBG.

Inductive event : Type :=
| EvSleep (timeout : k_timeout_t)
| EvGpio (call : gpio_call)
| EvChildAction (child : device_ref) (action : pm_device_action)
| EvLog (level : log_level) (msg : string).

Arguments EvChildAction child%_string action.

(** What the driver does between its calls: it reads the clock and it
    writes [data->next_boot]. *)
Inductive access : Type :=
| ReadUptime (ticks : Z)
| StoreNextBoot (t : k_timeout_t).

(** ** The world the driver runs in *)

Record world : Type := {
  can_yield : bool;            (* what k_can_yield() answers in this context *)
  uptime : Z;                  (* what k_uptime_ticks() reads *)
  pin_flags : Z;               (* configuration the enable pin is in *)
  pin_level : bool;            (* logical level of the enable pin *)
  data : pd_gpio_data;         (* dev->data *)
  trace : list (Z * event);    (* calls made so far, oldest first *)
  journal : list (nat * access)
    (* clock reads and data writes so far, oldest first, each with the
       number of calls of [trace] that were made before it *)
}.

Definition set_can_yield (b : bool) (w : world) : world :=
  {| can_yield := b; uptime := uptime w; pin_flags := pin_flags w;
     pin_level := pin_level w; data := data w; trace := trace w;
     journal := journal w |}.

Definition set_uptime (t : Z) (w : world) : world :=
  {| can_yield := can_yield w; uptime := t; pin_flags := pin_flags w;
     pin_level := pin_level w; data := data w; trace := trace w;
     journal := journal w |}.

Definition set_pin_flags (f : Z) (w : world) : world :=
  {| can_yield := can_yield w; uptime := uptime w; pin_flags := f;
     pin_level := pin_level w; data := data w; trace := trace w;
     journal := journal w |}.

Definition set_pin_level (l : bool) (w : world) : world :=
  {| can_yield := can_yield w; uptime := uptime w; pin_flags := pin_flags w;
     pin_level := l; data := data w; trace := trace w;
     journal := journal w |}.

Definition set_data (d : pd_gpio_data) (w : world) : world :=
  {| can_yield := can_yield w; uptime := uptime w; pin_flags := pin_flags w;
     pin_level := pin_level w; data := d; trace := trace w;
     journal := journal w |}.

Definition record (e : event) (w : world) : world :=
  {| can_yield := can_yield w; uptime := uptime w; pin_flags := pin_flags w;
     pin_level := pin_level w; data := data w;
     trace := trace w ++ [(uptime w, e)]; journal := journal w |}.

Definition note (a : access) (w : world) : world :=
  {| can_yield := can_yield w; uptime := uptime w; pin_flags := pin_flags w;
     pin_level := pin_level w; data := data w; trace := trace w;
     journal := journal w ++ [(List.length (trace w), a)] |}.

(** ** State monad *)

Definition M (A : Type) : Type := world -> A * world.

Definition ret {A : Type} (a : A) : M A := fun w => (a, w).

Definition bind {A B : Type} (m : M A) (k : A -> M B) : M B :=
  fun w => let (a, w') := m w in k a w'.

Declare Scope pd_scope.
Delimit Scope pd_scope with pd.
Notation "x <- m ;; k" := (bind m (fun x => k))
  (at level 61, m at next level, right associativity) : pd_scope.
Notation "m ;; k" := (bind m (fun _ => k))
  (at level 61, right associativity) : pd_scope.

Definition modify (f : world -> world) : M unit := fun w => (tt, f w).
Definition emit (e : event) : M unit := modify (record e).

(** Logging macros: the message is recorded with the [%s] argument filled in. *)
Definition LOG_ERR (msg : string) : M unit := emit (EvLog LOG_LEVEL_ERR msg).
Definition LOG_INF (msg : string) : M unit := emit (EvLog LOG_LEVEL_INF msg).
Definition LOG_DBG (msg : string) : M unit := emit (EvLog LOG_LEVEL_DBG msg).

(** ** Kernel services *)

(** Modelled from the spec: [k_can_yield()], kernel code outside
    power_domain_gpio.c, tells whether the calling context is "permitted to
    block"; an interrupt handler is not. *)
Definition k_can_yield : M bool := fun w => (can_yield w, w).

(** Modelled from the spec: [k_uptime_ticks()], kernel code outside
    power_domain_gpio.c, reads the "monotonic tick counter".  The read is
    entered in the journal. *)
Definition k_uptime_ticks : M Z :=
  fun w => (uptime w, note (ReadUptime (uptime w)) w).

(** Modelled from the spec: the instant a thread that calls [k_sleep] at
    [now] runs again.  [k_sleep] is kernel code outside
    power_domain_gpio.c; the spec describes the absolute wait as "sleep
    until max(now, deadline)" where "the zero-or-negative-remaining case is
    a true no-op, not a negative-duration wait", and the relative wait as
    blocking for the given duration. *)
Definition wake_at (timeout : k_timeout_t) (now : Z) : Z :=
  match timeout with
  | K_TICKS d => now + Z.max 0 d
  | K_TIMEOUT_ABS_TICKS deadline => Z.max now deadline
  end.

(** Modelled from the spec: [k_sleep(timeout)] blocks the caller until
    [wake_at]; the call is recorded at the time it is made. *)
Definition k_sleep (timeout : k_timeout_t) : M unit :=
  (emit (EvSleep timeout) ;;
   modify (fun w => set_uptime (wake_at timeout (uptime w)) w))%pd.

(** ** What the headers and the rest of the kernel provide

    Nothing of this is defined in power_domain_gpio.c: the driver is verified
    against every [platform]. *)
Class platform : Type := {
  (* errno.h *)
  ENOTSUP : Z;
  ENODEV : Z;
  EINVAL : Z;
  (* gpio.h flag words *)
  GPIO_DISCONNECTED : Z;
  GPIO_OUTPUT_INACTIVE : Z;
  GPIO_DS_ALT : Z;
  (* ticks per second of the kernel clock *)
  CONFIG_SYS_CLOCK_TICKS_PER_SEC : Z;
  (* device_is_ready(dev) *)
  device_is_ready : device_ref -> bool;
  (* status the GPIO port returns for a call made at a given uptime *)
  gpio_port_api : gpio_call -> Z -> Z;
  (* pm_device_action_run(child, action) as run by the fan-out at a given
     uptime: the child's status and the ticks its handler takes *)
  pm_device_action_run : device_ref -> pm_device_action -> Z -> Z * N;
  (* pm_device_driver_init(dev, action_cb), the PM core's part of device
     initialisation *)
  pm_device_driver_init : device -> (device -> pm_device_action -> M Z) -> M Z
}.

Section Driver.

Context {P : platform}.

(** *** Time conversion *)

(** Modelled from the spec: microseconds to ticks, rounded up.  The
    conversion helpers are kernel code outside power_domain_gpio.c; the
    spec only says the conversion is rounded up. *)
Definition us_to_ticks_ceil (us : Z) : Z :=
  (us * CONFIG_SYS_CLOCK_TICKS_PER_SEC + (1000000 - 1)) / 1000000.

(** Modelled from the spec: the rounded-up conversion with a [uint32_t]
    result. *)
Definition k_us_to_ticks_ceil32 (us : Z) : Z := us_to_ticks_ceil us mod 2 ^ 32.

(** Modelled from the spec: the rounded-up conversion with a [uint64_t]
    result. *)
Definition k_us_to_ticks_ceil64 (us : Z) : Z := us_to_ticks_ceil us mod 2 ^ 64.

(** Modelled from the spec: [K_USEC(us)] is the relative timeout of [us]
    microseconds. *)
Definition K_USEC (us : Z) : k_timeout_t := K_TICKS (k_us_to_ticks_ceil64 us).

(** Modelled from the spec: [K_TIMEOUT_ABS_US(us)] is the absolute timeout
    [us] microseconds after boot. *)
Definition K_TIMEOUT_ABS_US (us : Z) : k_timeout_t :=
  K_TIMEOUT_ABS_TICKS (k_us_to_ticks_ceil64 us).

(** *** Pin driver adapter *)

(** Modelled from the spec: the pin after the port has taken a flag word.
    The spec has two configurations: "actively-driven output, initial level
    = inactive/low", which is a word that holds every bit of
    [GPIO_OUTPUT_INACTIVE], and "floating/disconnected", which is
    [GPIO_DISCONNECTED] and drives no level. *)
Definition configure_pin (flags : Z) (w : world) : world :=
  let level :=
    if flags =? GPIO_DISCONNECTED then pin_level w
    else if Z.land flags GPIO_OUTPUT_INACTIVE =? GPIO_OUTPUT_INACTIVE
         then false
         else pin_level w in
  set_pin_level level (set_pin_flags flags w).

(** Modelled from the spec: [gpio_pin_configure_dt(spec, flags)].  The GPIO
    API is outside power_domain_gpio.c; the spec has pin reconfiguration as
    one atomic operation that leaves the pin as it was when it fails. *)
Definition gpio_pin_configure_dt (spec : gpio_dt_spec) (flags : Z) : M Z :=
  fun w =>
    let rc := gpio_port_api (GpioConfigure flags) (uptime w) in
    let w1 := record (EvGpio (GpioConfigure flags)) w in
    (rc, if rc =? 0 then configure_pin flags w1 else w1).

(** Modelled from the spec: [gpio_pin_set_dt(spec, value)] sets the logical
    level, active for a non-zero [value]; a failing call leaves the level
    as it was. *)
Definition gpio_pin_set_dt (spec : gpio_dt_spec) (value : Z) : M Z :=
  fun w =>
    let rc := gpio_port_api (GpioSet value) (uptime w) in
    let w1 := record (EvGpio (GpioSet value)) w in
    (rc, if rc =? 0 then set_pin_level (negb (value =? 0)) w1 else w1).

(** *** Dependent notification *)

(** Modelled from the spec: the loop of [pm_device_children_action_run]
    (PM core, outside power_domain_gpio.c).  "A simple, synchronous,
    depth-first broadcast: each registered dependent receives the matching
    action"; it "does not aggregate or short-circuit on a dependent's
    individual failure".  The driver passes NULL for the failure callback,
    so the model takes none. *)
Fixpoint children_action_run (cs : list device_ref)
         (action : pm_device_action) : M unit :=
  match cs with
  | [] => ret tt
  | c :: cs' =>
      (emit (EvChildAction c action) ;;
       (* the child's status is dropped: there is no failure callback *)
       modify (fun w =>
                 set_uptime
                   (uptime w
                    + Z.of_N (snd (pm_device_action_run c action (uptime w))))
                   w) ;;
       children_action_run cs' action)%pd
  end.

(** Modelled from the spec: [pm_device_children_action_run(dev, action,
    NULL)] runs that loop over "every entry in dependents". *)
Definition pm_device_children_action_run (dev : device)
           (action : pm_device_action) : M unit :=
  children_action_run (children dev) action.

(** *** The driver *)

(** [data->next_boot = t].  The write is entered in the journal. *)
Definition store_next_boot (t : k_timeout_t) : M unit :=
  modify (fun w => note (StoreNextBoot t) (set_data {| next_boot := t |} w)).

(** [static int pd_gpio_pm_action(const struct device *dev,
                                  enum pm_device_action action)] *)
Definition pd_gpio_pm_action (dev : device) (action : pm_device_action)
  : M Z :=
  let cfg := config dev in
  let flags := 0 in
  let rc := 0 in
  (yield <- k_can_yield ;;
   (* Validate that blocking API's can be used *)
   if negb yield then
     LOG_ERR "Blocking actions cannot run in this context" ;;
     ret (- ENOTSUP)
   else
     match action with
     | PM_DEVICE_ACTION_RESUME =>
         (* Wait until we can boot again *)
         d <- (fun w => (data w, w)) ;;
         k_sleep (next_boot d) ;;
         (* Switch power on *)
         gpio_pin_set_dt (enable cfg) 1 ;;
         LOG_INF (name dev ++ " is now ON") ;;
         (* Wait for domain to come up *)
         k_sleep (K_USEC (startup_delay_us cfg)) ;;
         (* Notify supported devices they are now powered *)
         pm_device_children_action_run dev PM_DEVICE_ACTION_TURN_ON ;;
         ret rc
     | PM_DEVICE_ACTION_SUSPEND =>
         (* Notify supported devices power is going down *)
         pm_device_children_action_run dev PM_DEVICE_ACTION_TURN_OFF ;;
         (* Switch power off *)
         gpio_pin_set_dt (enable cfg) 0 ;;
         LOG_INF (name dev ++ " is now OFF") ;;
         (* Store next time we can boot.  The sum is an int64_t one, whose
            overflow C leaves undefined: ticks stay in Z. *)
         now <- k_uptime_ticks ;;
         let next_boot_ticks :=
           now + k_us_to_ticks_ceil32 (off_on_delay_us cfg) in
         store_next_boot (K_TIMEOUT_ABS_TICKS next_boot_ticks) ;;
         ret rc
     | PM_DEVICE_ACTION_TURN_ON =>
         (* DS_ALT is the highest drive strength for both directions *)
         let flags :=
           if enable_high_drive cfg then Z.lor flags GPIO_DS_ALT else flags in
         (* Actively control the enable pin now that the device is powered *)
         gpio_pin_configure_dt (enable cfg)
                               (Z.lor GPIO_OUTPUT_INACTIVE flags) ;;
         LOG_DBG (name dev ++ " is OFF and powered") ;;
         ret rc
     | PM_DEVICE_ACTION_TURN_OFF =>
         (* Let the enable pin float while device is not powered *)
         gpio_pin_configure_dt (enable cfg) GPIO_DISCONNECTED ;;
         LOG_DBG (name dev ++ " is OFF and not powered") ;;
         ret rc
     | PM_DEVICE_ACTION_INVALID _ =>
         ret (- ENOTSUP)
     end)%pd.

(** [static int pd_gpio_init(const struct device *dev)] *)
Definition pd_gpio_init (dev : device) : M Z :=
  let cfg := config dev in
  (if negb (device_is_ready (port (enable cfg))) then
     LOG_ERR ("GPIO port " ++ port (enable cfg) ++ " is not ready") ;;
     ret (- ENODEV)
   else if match pm_domain dev with
           | Some domain => negb (device_is_ready domain)
           | None => false
           end then
     LOG_ERR ("Invalid domain sequencing! " ++ name dev ++ " depends on "
              ++ match pm_domain dev with Some d => d | None => "" end) ;;
     ret (- EINVAL)
   else
     (* We can't know how long the domain has been off for before boot *)
     store_next_boot (K_TIMEOUT_ABS_US (off_on_delay_us cfg)) ;;
     (* Configure control pin for OFF *)
     pd_gpio_pm_action dev PM_DEVICE_ACTION_TURN_OFF ;;
     (* Boot into appropriate power mode *)
     pm_device_driver_init dev pd_gpio_pm_action)%pd.

End Driver.

(** ** Reading a trace *)

Definition is_gpio_call (e : event) : bool :=
  match e with EvGpio _ => true | _ => false end.

Definition is_notification (e : event) : bool :=
  match e with EvChildAction _ _ => true | _ => false end.

(** The enable pin is told to go inactive. *)
Definition is_deenergize (e : event) : bool :=
  match e with EvGpio (GpioSet value) => value =? 0 | _ => false end.

(** What a call added to the trace. *)
Definition emitted (w w' : world) : list (Z * event) :=
  skipn (List.length (trace w)) (trace w').

Definition gpio_calls (evs : list (Z * event)) : list (Z * event) :=
  filter (fun te => is_gpio_call (snd te)) evs.

Definition notifications (evs : list (Z * event)) : list event :=
  filter is_notification (map snd evs).

(** Uptime of the latest de-energize in a trace, if there is one. *)
Definition note_deenergize (acc : option Z) (te : Z * event) : option Z :=
  if is_deenergize (snd te) then Some (fst te) else acc.

Definition last_deenergize (tr : list (Z * event)) : option Z :=
  fold_left note_deenergize tr None.

Arguments last_deenergize : simpl never.

Definition pm_device_action_eq_dec (a b : pm_device_action) : {a = b} + {a <> b}.
Proof. decide equality; apply Z.eq_dec. Defined.

Definition event_eq_dec (a b : event) : {a = b} + {a <> b}.
Proof.
  decide equality;
    try apply string_dec; try apply pm_device_action_eq_dec;
    decide equality; apply Z.eq_dec.
Defined.

(** ** The state machine of the spec *)

Inductive pd_state : Type := DISCONNECTED | DRIVEN_OFF | ON.

(** Modelled from the spec: the transition table of section 4.1, [None] where
    the table has no row for the action in that state. *)
Definition spec_transition (s : pd_state) (a : pm_device_action)
  : option pd_state :=
  match a, s with
  | PM_DEVICE_ACTION_TURN_ON, DISCONNECTED => Some DRIVEN_OFF
  | PM_DEVICE_ACTION_TURN_OFF, DRIVEN_OFF => Some DISCONNECTED
  | PM_DEVICE_ACTION_TURN_OFF, DISCONNECTED => Some DISCONNECTED
  | PM_DEVICE_ACTION_RESUME, DRIVEN_OFF => Some ON
  | PM_DEVICE_ACTION_SUSPEND, ON => Some DRIVEN_OFF
  | _, _ => None
  end.

(** Modelled from the spec: the state as section 4.1 describes it, read off
    the pin: [DISCONNECTED] (pin floating), [DRIVEN_OFF] (pin actively driven
    low), [ON] (pin driven high).  The driver itself keeps no such state. *)
Definition observed_state {P : platform} (w : world) : pd_state :=
  if pin_flags w =? GPIO_DISCONNECTED then DISCONNECTED
  else if pin_level w then ON else DRIVEN_OFF.

(** ** Runs of the instance after construction *)

(** The caller either invokes the action entry point from some context or
    lets time pass. *)
Inductive request : Type :=
| Call (blockable : bool) (action : pm_device_action)
| Elapse (ticks : N).

Definition step {P : platform} (dev : device) (w : world) (r : request)
  : world :=
  match r with
  | Call blockable action =>
      snd (pd_gpio_pm_action dev action (set_can_yield blockable w))
  | Elapse ticks => set_uptime (uptime w + Z.of_N ticks) w
  end.

Definition run {P : platform} (dev : device) (rs : list request) (w : world)
  : world :=
  fold_left (step dev) rs w.

(** A request that completes a de-energize. *)
Definition completes_suspend (r : request) : bool :=
  match r with
  | Call true PM_DEVICE_ACTION_SUSPEND => true
  | _ => false
  end.

(** The deadline the history of the instance calls for: the latest
    de-energize plus the cooldown, or a cooldown counted from boot. *)
Definition cooldown_deadline {P : platform} (dev : device)
           (tr : list (Z * event)) : Z :=
  match last_deenergize tr with
  | Some T => T + k_us_to_ticks_ceil32 (off_on_delay_us (config dev))
  | None => k_us_to_ticks_ceil64 (off_on_delay_us (config dev))
  end.

Definition cooldown_invariant {P : platform} (dev : device) (w : world)
  : Prop :=
  next_boot (data w) = K_TIMEOUT_ABS_TICKS (cooldown_deadline dev (trace w)).

(** ** Sample boards *)

(** Modelled from the spec: a PM core whose [pm_device_driver_init] only
    registers the callback.  The PM core is outside power_domain_gpio.c; the
    spec has the instance in [DISCONNECTED] after construction, the rail not
    energized until an explicit [RESUME]. *)
Definition pm_core_registers_only
           (dev : device) (action_cb : device -> pm_device_action -> M Z)
  : M Z := ret 0.

(** A board on a 10 kHz tick where every port call and every dependent
    succeeds at once. *)
Definition board : platform :=
  {| ENOTSUP := 134; ENODEV := 19; EINVAL := 22;
     GPIO_DISCONNECTED := 0;
     GPIO_OUTPUT_INACTIVE := Z.lor (2 ^ 17) (Z.lor (2 ^ 18) (2 ^ 20));
     GPIO_DS_ALT := Z.lor (2 ^ 9) (2 ^ 10);
     CONFIG_SYS_CLOCK_TICKS_PER_SEC := 10000;
     device_is_ready := fun _ => true;
     gpio_port_api := fun _ _ => 0;
     pm_device_action_run := fun _ _ _ => (0, 0%N);
     pm_device_driver_init := pm_core_registers_only |}.

(** The same board with a port that rejects every call with [-EIO] and
    dependents that fail with [-EIO] after 3 ticks. *)
Definition faulty_board : platform :=
  {| ENOTSUP := 134; ENODEV := 19; EINVAL := 22;
     GPIO_DISCONNECTED := 0;
     GPIO_OUTPUT_INACTIVE := Z.lor (2 ^ 17) (Z.lor (2 ^ 18) (2 ^ 20));
     GPIO_DS_ALT := Z.lor (2 ^ 9) (2 ^ 10);
     CONFIG_SYS_CLOCK_TICKS_PER_SEC := 10000;
     device_is_ready := fun _ => true;
     gpio_port_api := fun _ _ => -5;
     pm_device_action_run := fun _ _ _ => (-5, 3%N);
     pm_device_driver_init := pm_core_registers_only |}.

(** The same board with a GPIO port that is not ready and a parent domain
    that is. *)
Definition board_port_down : platform :=
  {| ENOTSUP := 134; ENODEV := 19; EINVAL := 22;
     GPIO_DISCONNECTED := 0;
     GPIO_OUTPUT_INACTIVE := Z.lor (2 ^ 17) (Z.lor (2 ^ 18) (2 ^ 20));
     GPIO_DS_ALT := Z.lor (2 ^ 9) (2 ^ 10);
     CONFIG_SYS_CLOCK_TICKS_PER_SEC := 10000;
     device_is_ready := fun d => negb (String.eqb d "gpio0"%string);
     gpio_port_api := fun _ _ => 0;
     pm_device_action_run := fun _ _ _ => (0, 0%N);
     pm_device_driver_init := pm_core_registers_only |}.

(** The scenario of the spec: [startup_delay_us = 1000],
    [cooldown_delay_us = 5000], here with two dependents. *)
Definition rail : device :=
  {| name := "rail"%string;
     config := {| enable := {| port := "gpio0"%string; pin := 7;
                               dt_flags := 0 |};
                  startup_delay_us := 1000;
                  off_on_delay_us := 5000;
                  enable_high_drive := true |};
     pm_domain := Some "parent"%string;
     children := ["d1"%string; "d2"%string] |}.

(** The world at boot: uptime 0, nothing called yet, the pin in some reset
    configuration, the driver data zero-initialised. *)
Definition boot : world :=
  {| can_yield := true; uptime := 0; pin_flags := 2 ^ 16; pin_level := false;
     data := {| next_boot := K_TICKS 0 |}; trace := []; journal := [] |}.

(** The instance of the scenario after construction, after the [TURN_ON]
    that follows, and after the [RESUME] that follows that. *)
Definition constructed : world := snd (pd_gpio_init (P := board) rail boot).

Definition driven_off : world :=
  run (P := board) rail [Call true PM_DEVICE_ACTION_TURN_ON] constructed.

Definition powered_on : world :=
  run (P := board) rail [Call true PM_DEVICE_ACTION_RESUME] driven_off.

(** A board whose kernel clock runs at 4 MHz, otherwise as [board]. *)
Definition fast_board : platform :=
  {| ENOTSUP := 134; ENODEV := 19; EINVAL := 22;
     GPIO_DISCONNECTED := 0;
     GPIO_OUTPUT_INACTIVE := Z.lor (2 ^ 17) (Z.lor (2 ^ 18) (2 ^ 20));
     GPIO_DS_ALT := Z.lor (2 ^ 9) (2 ^ 10);
     CONFIG_SYS_CLOCK_TICKS_PER_SEC := 4000000;
     device_is_ready := fun _ => true;
     gpio_port_api := fun _ _ => 0;
     pm_device_action_run := fun _ _ _ => (0, 0%N);
     pm_device_driver_init := pm_core_registers_only |}.

(** A rail that has to stay off for [2 ^ 30] microseconds, about 18
    minutes, otherwise as [rail]. *)
Definition slow_rail : device :=
  {| name := "rail"%string;
     config := {| enable := {| port := "gpio0"%string; pin := 7;
                               dt_flags := 0 |};
                  startup_delay_us := 1000;
                  off_on_delay_us := 2 ^ 30;
                  enable_high_drive := true |};
     pm_domain := Some "parent"%string;
     children := ["d1"%string; "d2"%string] |}.

(** That rail on that board after construction, [TURN_ON] and [RESUME]. *)
Definition fast_powered_on : world :=
  run (P := fast_board) slow_rail
      [Call true PM_DEVICE_ACTION_TURN_ON; Call true PM_DEVICE_ACTION_RESUME]
      (snd (pd_gpio_init (P := fast_board) slow_rail boot)).

(** ** Whole-trace properties *)

Definition is_sleep (e : event) : bool :=
  match e with EvSleep _ => true | _ => false end.

Definition sleeps (evs : list (Z * event)) : list (Z * event) :=
  filter (fun te => is_sleep (snd te)) evs.

(** The enable pin is told to go active. *)
Definition is_energize (e : event) : bool :=
  match e with EvGpio (GpioSet value) => negb (value =? 0) | _ => false end.

(** No [gpio_pin_set_dt] call of the trace sets the pin active before the
    deadline in force: [deadline] at first, then [cooldown] ticks after the
    latest [gpio_pin_set_dt] call that set it inactive.  Configure calls are
    no such calls and move no deadline. *)
Fixpoint cooldown_respected (cooldown deadline : Z) (tr : list (Z * event))
  : bool :=
  match tr with
  | [] => true
  | (t, e) :: tr' =>
      if is_deenergize e then cooldown_respected cooldown (t + cooldown) tr'
      else if is_energize e then
             (deadline <=? t) && cooldown_respected cooldown deadline tr'
           else cooldown_respected cooldown deadline tr'
  end.

(** The pin of [dev] was never set active early: not before the 64-bit tick
    count of the cooldown after boot, nor less than the 32-bit tick count of
    the cooldown, the one [SUSPEND] adds, after a call that set it
    inactive. *)
Definition never_energized_early {P : platform} (dev : device)
           (tr : list (Z * event)) : bool :=
  cooldown_respected (k_us_to_ticks_ceil32 (off_on_delay_us (config dev)))
                     (k_us_to_ticks_ceil64 (off_on_delay_us (config dev))) tr.

(** A dependent is told it is powered. *)
Definition is_turn_on_note (e : event) : bool :=
  match e with
  | EvChildAction _ PM_DEVICE_ACTION_TURN_ON => true
  | _ => false
  end.

Definition note_energize (acc : option Z) (te : Z * event) : option Z :=
  if is_energize (snd te) then Some (fst te) else acc.

(** No [TURN_ON] notification in the trace comes before the pin was set
    active, nor less than [settle] after the latest call that set it active;
    [last_on] is the instant of that call so far. *)
Fixpoint settle_respected (settle : Z) (last_on : option Z)
         (tr : list (Z * event)) : bool :=
  match tr with
  | [] => true
  | (t, e) :: tr' =>
      if is_energize e then settle_respected settle (Some t) tr'
      else if is_turn_on_note e then
             match last_on with
             | Some t0 =>
                 (t0 + settle <=? t) && settle_respected settle last_on tr'
             | None => false
             end
           else settle_respected settle last_on tr'
  end.

(** The dependents of [dev] were never told [TURN_ON] early. *)
Definition never_notified_early {P : platform} (dev : device)
           (tr : list (Z * event)) : bool :=
  settle_respected (k_us_to_ticks_ceil64 (startup_delay_us (config dev)))
                   None tr.

(** Modelled from the spec: the table of section 4.1 run over a sequence of
    actions, [None] as soon as one has no row. *)
Fixpoint spec_run (s : pd_state) (acts : list pm_device_action)
  : option pd_state :=
  match acts with
  | [] => Some s
  | a :: acts' =>
      match spec_transition s a with
      | Some s' => spec_run s' acts'
      | None => None
      end
  end.

(** The flag word the [TURN_ON] arm passes to [gpio_pin_configure_dt]. *)
Definition turn_on_flags {P : platform} (dev : device) : Z :=
  Z.lor GPIO_OUTPUT_INACTIVE
        (if enable_high_drive (config dev) then Z.lor 0 GPIO_DS_ALT else 0).

(** The scenario in an interrupt handler, before construction. *)
Definition boot_in_isr : world := set_can_yield false boot.

(** ** Proof automation *)

(** Unfolds the monad and the kernel and pin services. *)
Ltac run_monad :=
  unfold bind, ret, emit, modify, k_can_yield, k_uptime_ticks, k_sleep,
    LOG_ERR, LOG_INF, LOG_DBG, store_next_boot,
    gpio_pin_set_dt, gpio_pin_configure_dt, pm_device_children_action_run.

(** * Properties *)

Section Properties.

Context {P : platform}.

(** ** The fan-out *)

(** The fan-out appends one notification per dependent, in order, stamped
    between its start and its end, and touches nothing but the clock. *)
Lemma children_action_run_spec (cs : list device_ref) (a : pm_device_action) :
  forall w, exists evs,
    let w' := snd (children_action_run cs a w) in
    trace w' = trace w ++ evs /\
    map snd evs = map (fun c => EvChildAction c a) cs /\
    Forall (fun te => uptime w <= fst te <= uptime w') evs /\
    uptime w <= uptime w' /\
    can_yield w' = can_yield w /\ pin_flags w' = pin_flags w /\
    pin_level w' = pin_level w /\ data w' = data w.
Proof.
  induction cs as [|c cs IH]; intros w.
  - exists []. cbn. rewrite app_nil_r. repeat split; try constructor; lia.
  - cbn [children_action_run].
    unfold bind, emit, modify, k_uptime_ticks. cbn [snd fst].
    set (w1 := set_uptime _ _).
    destruct (IH w1) as (evs & Htr & Hmap & Hall & Hmono & Hy & Hf & Hl & Hd).
    cbn zeta in *.
    assert (Hstep : uptime w <= uptime w1) by (subst w1; cbn; lia).
    exists ((uptime w, EvChildAction c a) :: evs).
    cbn zeta. repeat split.
    + rewrite Htr. subst w1. cbn. rewrite <- app_assoc. reflexivity.
    + cbn. now rewrite Hmap.
    + constructor; [cbn; lia|].
      eapply Forall_impl; [|exact Hall]. cbn. intros te Hte. lia.
    + lia.
    + now rewrite Hy.
    + now rewrite Hf.
    + now rewrite Hl.
    + now rewrite Hd.
Qed.

(** ** One lemma per arm of the [switch] *)

(** The guard: nothing but the error log happens. *)
Lemma pm_action_cannot_yield (dev : device) (a : pm_device_action) (w : world) :
  can_yield w = false ->
  pd_gpio_pm_action dev a w =
  (- ENOTSUP,
   record (EvLog LOG_LEVEL_ERR "Blocking actions cannot run in this context") w).
Proof.
  intros Hy. unfold pd_gpio_pm_action. run_monad. now rewrite Hy.
Qed.

Lemma pm_action_invalid (dev : device) (raw : Z) (w : world) :
  can_yield w = true ->
  pd_gpio_pm_action dev (PM_DEVICE_ACTION_INVALID raw) w = (- ENOTSUP, w).
Proof.
  intros Hy. unfold pd_gpio_pm_action. run_monad. now rewrite Hy.
Qed.

Lemma pm_action_turn_off (dev : device) (w : world) :
  can_yield w = true ->
  let rc := gpio_port_api (GpioConfigure GPIO_DISCONNECTED) (uptime w) in
  let w1 := record (EvGpio (GpioConfigure GPIO_DISCONNECTED)) w in
  pd_gpio_pm_action dev PM_DEVICE_ACTION_TURN_OFF w =
  (0, record (EvLog LOG_LEVEL_DBG (name dev ++ " is OFF and not powered"))
             (if rc =? 0 then configure_pin GPIO_DISCONNECTED w1 else w1)).
Proof.
  intros Hy. unfold pd_gpio_pm_action. run_monad. now rewrite Hy.
Qed.

Lemma pm_action_turn_on (dev : device) (w : world) :
  can_yield w = true ->
  let flags := Z.lor GPIO_OUTPUT_INACTIVE
                     (if enable_high_drive (config dev)
                      then Z.lor 0 GPIO_DS_ALT else 0) in
  let rc := gpio_port_api (GpioConfigure flags) (uptime w) in
  let w1 := record (EvGpio (GpioConfigure flags)) w in
  pd_gpio_pm_action dev PM_DEVICE_ACTION_TURN_ON w =
  (0, record (EvLog LOG_LEVEL_DBG (name dev ++ " is OFF and powered"))
             (if rc =? 0 then configure_pin flags w1 else w1)).
Proof.
  intros Hy. unfold pd_gpio_pm_action. run_monad. now rewrite Hy.
Qed.

(** [RESUME] up to the fan-out: the world [w0] the fan-out starts from. *)
Lemma pm_action_resume (dev : device) (w : world) :
  can_yield w = true ->
  let t_on := wake_at (next_boot (data w)) (uptime w) in
  exists w0,
    pd_gpio_pm_action dev PM_DEVICE_ACTION_RESUME w =
    (0, snd (children_action_run (children dev) PM_DEVICE_ACTION_TURN_ON w0)) /\
    trace w0 = trace w ++
      [(uptime w, EvSleep (next_boot (data w)));
       (t_on, EvGpio (GpioSet 1));
       (t_on, EvLog LOG_LEVEL_INF (name dev ++ " is now ON"));
       (t_on, EvSleep (K_USEC (startup_delay_us (config dev))))] /\
    uptime w0 =
      t_on + Z.max 0 (k_us_to_ticks_ceil64 (startup_delay_us (config dev))) /\
    data w0 = data w /\ can_yield w0 = true /\ pin_flags w0 = pin_flags w /\
    pin_level w0 =
      (if gpio_port_api (GpioSet 1) t_on =? 0 then true else pin_level w).
Proof.
  intros Hy t_on. unfold pd_gpio_pm_action. run_monad. rewrite Hy. cbn.
  match goal with
  | |- context [children_action_run _ _ ?w0] => exists w0
  end.
  split.
  - now destruct (children_action_run _ _ _).
  - fold t_on. destruct (gpio_port_api (GpioSet 1) t_on =? 0); cbn;
      rewrite <- !app_assoc; cbn; repeat split; auto.
Qed.

(** [SUSPEND] after the fan-out, which runs on [w] itself. *)
Lemma pm_action_suspend (dev : device) (w : world) :
  can_yield w = true ->
  let w1 := snd (children_action_run (children dev)
                                     PM_DEVICE_ACTION_TURN_OFF w) in
  let rc := gpio_port_api (GpioSet 0) (uptime w1) in
  let w2 := record (EvGpio (GpioSet 0)) w1 in
  let w3 := record (EvLog LOG_LEVEL_INF (name dev ++ " is now OFF"))
                   (if rc =? 0 then set_pin_level false w2 else w2) in
  let next :=
    K_TIMEOUT_ABS_TICKS
      (uptime w3 + k_us_to_ticks_ceil32 (off_on_delay_us (config dev))) in
  pd_gpio_pm_action dev PM_DEVICE_ACTION_SUSPEND w =
  (0, note (StoreNextBoot next)
           (set_data {| next_boot := next |}
                     (note (ReadUptime (uptime w3)) w3))).
Proof.
  intros Hy. unfold pd_gpio_pm_action. run_monad. rewrite Hy. cbn.
  now destruct (children_action_run _ _ _).
Qed.


(** ** Rounding of the tick conversion *)

Lemma us_to_ticks_ceil_covers (us : Z) :
  us * CONFIG_SYS_CLOCK_TICKS_PER_SEC <= us_to_ticks_ceil us * 1000000.
Proof.
  unfold us_to_ticks_ceil.
  set (x := us * CONFIG_SYS_CLOCK_TICKS_PER_SEC).
  pose proof (Z.div_mod (x + (1000000 - 1)) 1000000 ltac:(lia)) as Hdm.
  pose proof (Z.mod_pos_bound (x + (1000000 - 1)) 1000000 ltac:(lia)) as Hb.
  lia.
Qed.

Lemma us_to_ticks_ceil_bounds (us : Z) :
  0 <= us * CONFIG_SYS_CLOCK_TICKS_PER_SEC ->
  0 <= us_to_ticks_ceil us <= us * CONFIG_SYS_CLOCK_TICKS_PER_SEC + 999999.
Proof.
  intros Hx. unfold us_to_ticks_ceil.
  set (x := us * CONFIG_SYS_CLOCK_TICKS_PER_SEC) in *.
  split.
  - apply Z.div_pos; lia.
  - pose proof (Z.div_mod (x + (1000000 - 1)) 1000000 ltac:(lia)) as Hdm.
    pose proof (Z.mod_pos_bound (x + (1000000 - 1)) 1000000 ltac:(lia)) as Hb.
    assert (0 <= (x + (1000000 - 1)) / 1000000) by (apply Z.div_pos; lia).
    lia.
Qed.

(** A 32-bit delay on a 32-bit tick rate does not wrap the 64-bit
    conversion, which then lasts at least the delay. *)
Lemma k_us_to_ticks_ceil64_covers (us : Z) :
  0 <= us < 2 ^ 32 ->
  0 < CONFIG_SYS_CLOCK_TICKS_PER_SEC < 2 ^ 32 ->
  us * CONFIG_SYS_CLOCK_TICKS_PER_SEC <= k_us_to_ticks_ceil64 us * 1000000.
Proof.
  intros Hus Hhz. unfold k_us_to_ticks_ceil64.
  pose proof (us_to_ticks_ceil_bounds us ltac:(nia)) as Hb.
  rewrite Z.mod_small.
  - apply us_to_ticks_ceil_covers.
  - change (2 ^ 32) with 4294967296 in *.
    change (2 ^ 64) with 18446744073709551616. nia.
Qed.

(** ** The energize and de-energize sequences *)

(** C1: a [RESUME] accepted in a blockable context first sleeps on the stored
    [next_boot], then sets the enable pin active, then sleeps for the startup
    delay, and only then notifies the dependents with [TURN_ON]; every
    notification is stamped at least the startup delay after the pin call. *)
Theorem resume_sequence (dev : device) (w : world) :
  can_yield w = true ->
  let w' := snd (pd_gpio_pm_action dev PM_DEVICE_ACTION_RESUME w) in
  let t_on := wake_at (next_boot (data w)) (uptime w) in
  let startup := startup_delay_us (config dev) in
  exists notes,
    trace w' = trace w ++
      [(uptime w, EvSleep (next_boot (data w)));
       (t_on, EvGpio (GpioSet 1));
       (t_on, EvLog LOG_LEVEL_INF (name dev ++ " is now ON"));
       (t_on, EvSleep (K_USEC startup))] ++ notes /\
    map snd notes =
      map (fun c => EvChildAction c PM_DEVICE_ACTION_TURN_ON) (children dev) /\
    Forall (fun te => t_on + k_us_to_ticks_ceil64 startup <= fst te) notes /\
    (forall deadline,
        next_boot (data w) = K_TIMEOUT_ABS_TICKS deadline ->
        uptime w <= t_on /\ deadline <= t_on) /\
    (0 <= startup < 2 ^ 32 ->
     0 < CONFIG_SYS_CLOCK_TICKS_PER_SEC < 2 ^ 32 ->
     Forall (fun te => startup * CONFIG_SYS_CLOCK_TICKS_PER_SEC
                       <= (fst te - t_on) * 1000000) notes).
Proof.
  intros Hy w' t_on startup.
  destruct (pm_action_resume dev w Hy) as (w0 & Heq & Htr & Hup & _).
  fold t_on startup in Htr, Hup.
  destruct (children_action_run_spec (children dev) PM_DEVICE_ACTION_TURN_ON w0)
    as (notes & Hntr & Hmap & Hall & _).
  cbn zeta in Hntr, Hall.
  assert (Hlate : Forall (fun te => t_on + k_us_to_ticks_ceil64 startup
                                    <= fst te) notes).
  { eapply Forall_impl; [|exact Hall]. cbn. intros te Hte. lia. }
  exists notes. subst w'. rewrite Heq. cbn [snd].
  repeat split.
  - rewrite Hntr, Htr, <- app_assoc. reflexivity.
  - exact Hmap.
  - exact Hlate.
  - subst t_on. rewrite H. cbn. lia.
  - subst t_on. rewrite H. cbn. lia.
  - intros Hs Hhz.
    pose proof (k_us_to_ticks_ceil64_covers startup Hs Hhz) as Hc.
    eapply Forall_impl; [|exact Hlate]. cbn. intros te Hte. lia.
Qed.


(** ** What a call adds to the trace *)

Lemma emitted_app (w w' : world) (evs : list (Z * event)) :
  trace w' = trace w ++ evs -> emitted w w' = evs.
Proof.
  intros H. unfold emitted. rewrite H, skipn_app, skipn_all, Nat.sub_diag.
  reflexivity.
Qed.

(** Notifications are neither pin calls nor de-energize events. *)
Lemma notes_no_gpio (a : pm_device_action) (cs : list device_ref) :
  forall notes,
    map snd notes = map (fun c => EvChildAction c a) cs ->
    gpio_calls notes = [].
Proof.
  induction cs as [|c cs IH]; intros [|[t e] notes] H; cbn in H;
    try discriminate; [reflexivity|].
  injection H as He Hrest. subst e. cbn. now apply IH.
Qed.

Lemma notes_quiet (a : pm_device_action) (cs : list device_ref) :
  forall notes acc,
    map snd notes = map (fun c => EvChildAction c a) cs ->
    fold_left note_deenergize notes acc = acc.
Proof.
  induction cs as [|c cs IH]; intros [|[t e] notes] acc H; cbn in H;
    try discriminate; [reflexivity|].
  injection H as He Hrest. subst e. cbn. now apply IH.
Qed.

Lemma notes_all_notifications (a : pm_device_action) (cs : list device_ref) :
  filter is_notification (map (fun c => EvChildAction c a) cs) =
  map (fun c => EvChildAction c a) cs.
Proof. induction cs as [|c cs IH]; cbn; [reflexivity|now rewrite IH]. Qed.

(** What [RESUME] emits, and where it leaves the instance data. *)
Lemma resume_emitted (dev : device) (w : world) :
  can_yield w = true ->
  let w' := snd (pd_gpio_pm_action dev PM_DEVICE_ACTION_RESUME w) in
  let t_on := wake_at (next_boot (data w)) (uptime w) in
  exists notes,
    emitted w w' =
      [(uptime w, EvSleep (next_boot (data w)));
       (t_on, EvGpio (GpioSet 1));
       (t_on, EvLog LOG_LEVEL_INF (name dev ++ " is now ON"));
       (t_on, EvSleep (K_USEC (startup_delay_us (config dev))))] ++ notes /\
    map snd notes =
      map (fun c => EvChildAction c PM_DEVICE_ACTION_TURN_ON) (children dev) /\
    data w' = data w.
Proof.
  intros Hy w' t_on.
  destruct (pm_action_resume dev w Hy) as (w0 & Heq & Htr & _ & Hd & _).
  destruct (children_action_run_spec (children dev) PM_DEVICE_ACTION_TURN_ON w0)
    as (notes & Hntr & Hmap & _ & _ & _ & _ & _ & Hdata).
  cbn zeta in Hntr, Hdata.
  exists notes. subst w'. rewrite Heq. cbn [snd]. repeat split.
  - apply emitted_app. rewrite Hntr, Htr, <- app_assoc. reflexivity.
  - exact Hmap.
  - now rewrite Hdata.
Qed.

(** What [SUSPEND] emits, and what it stores. *)
Lemma suspend_emitted (dev : device) (w : world) :
  can_yield w = true ->
  let w' := snd (pd_gpio_pm_action dev PM_DEVICE_ACTION_SUSPEND w) in
  exists notes,
    emitted w w' = notes ++
      [(uptime w', EvGpio (GpioSet 0));
       (uptime w', EvLog LOG_LEVEL_INF (name dev ++ " is now OFF"))] /\
    map snd notes =
      map (fun c => EvChildAction c PM_DEVICE_ACTION_TURN_OFF) (children dev) /\
    next_boot (data w') =
      K_TIMEOUT_ABS_TICKS
        (uptime w' + k_us_to_ticks_ceil32 (off_on_delay_us (config dev))).
Proof.
  intros Hy w'. subst w'.
  rewrite (pm_action_suspend dev w Hy). cbn zeta. cbn [snd].
  destruct (children_action_run_spec (children dev) PM_DEVICE_ACTION_TURN_OFF w)
    as (notes & Hntr & Hmap & _).
  cbn zeta in Hntr.
  set (w1 := snd (children_action_run _ _ w)) in *.
  exists notes.
  destruct (gpio_port_api (GpioSet 0) (uptime w1) =? 0); cbn;
    (repeat split; [|exact Hmap]);
    apply emitted_app; cbn; rewrite Hntr, <- !app_assoc; reflexivity.
Qed.

(** ** Requests and the stored deadline *)

Lemma last_deenergize_app (tr evs : list (Z * event)) :
  last_deenergize (tr ++ evs) =
  fold_left note_deenergize evs (last_deenergize tr).
Proof. unfold last_deenergize. apply fold_left_app. Qed.

(** A request other than a completed [SUSPEND] leaves [next_boot] and the
    latest de-energize of the trace as they are. *)
Lemma step_quiet (dev : device) (w : world) (r : request) :
  completes_suspend r = false ->
  data (step dev w r) = data w /\
  last_deenergize (trace (step dev w r)) = last_deenergize (trace w).
Proof.
  intros Hr. destruct r as [[|] a|n]; cbn [step].
  - assert (Hy : can_yield (set_can_yield true w) = true) by reflexivity.
    destruct a; try discriminate.
    + destruct (resume_emitted dev _ Hy) as (notes & Hem & Hmap & Hd).
      cbn zeta in Hem, Hd. split; [now rewrite Hd|].
      destruct (pm_action_resume dev _ Hy) as (w0 & Heq & Htr & _).
      destruct (children_action_run_spec
                  (children dev) PM_DEVICE_ACTION_TURN_ON w0)
        as (notes' & Hntr & Hmap' & _).
      cbn zeta in Hntr. rewrite Heq. cbn [snd].
      rewrite Hntr, last_deenergize_app, (notes_quiet _ _ _ _ Hmap').
      rewrite Htr, last_deenergize_app. reflexivity.
    + rewrite (pm_action_turn_off dev _ Hy). cbn zeta. cbn [snd].
      destruct (_ =? 0); cbn; rewrite !last_deenergize_app; split; reflexivity.
    + rewrite (pm_action_turn_on dev _ Hy). cbn zeta. cbn [snd].
      destruct (_ =? 0); cbn; rewrite !last_deenergize_app; split; reflexivity.
    + rewrite (pm_action_invalid dev _ _ Hy). split; reflexivity.
  - assert (Hy : can_yield (set_can_yield false w) = false) by reflexivity.
    rewrite (pm_action_cannot_yield dev a _ Hy). cbn.
    rewrite last_deenergize_app. split; reflexivity.
  - split; reflexivity.
Qed.

(** A completed [SUSPEND] stores its own de-energize instant plus the
    cooldown. *)
Lemma step_suspend (dev : device) (w : world) :
  let w' := step dev w (Call true PM_DEVICE_ACTION_SUSPEND) in
  last_deenergize (trace w') = Some (uptime w') /\
  next_boot (data w') =
    K_TIMEOUT_ABS_TICKS
      (uptime w' + k_us_to_ticks_ceil32 (off_on_delay_us (config dev))).
Proof.
  cbn [step].
  assert (Hy : can_yield (set_can_yield true w) = true) by reflexivity.
  destruct (suspend_emitted dev _ Hy) as (notes & Hem & Hmap & Hnb).
  cbn zeta in *. split; [|exact Hnb].
  rewrite (pm_action_suspend dev _ Hy) in *. cbn zeta in *. cbn [snd] in *.
  destruct (children_action_run_spec
              (children dev) PM_DEVICE_ACTION_TURN_OFF (set_can_yield true w))
    as (notes' & Hntr & Hmap' & _).
  cbn zeta in Hntr.
  set (w1 := snd (children_action_run _ _ _)) in *.
  destruct (gpio_port_api (GpioSet 0) (uptime w1) =? 0); cbn;
    rewrite Hntr, !last_deenergize_app, (notes_quiet _ _ _ _ Hmap');
    reflexivity.
Qed.

Lemma run_quiet (dev : device) (rs : list request) :
  forall w,
    forallb (fun r => negb (completes_suspend r)) rs = true ->
    data (run dev rs w) = data w.
Proof.
  induction rs as [|r rs IH]; intros w H; [reflexivity|].
  cbn in H. apply andb_prop in H as [Hr Hrs]. apply negb_true_iff in Hr.
  cbn. unfold run in IH. rewrite (IH _ Hrs).
  now apply step_quiet.
Qed.

Lemma step_invariant (dev : device) (w : world) (r : request) :
  cooldown_invariant dev w -> cooldown_invariant dev (step dev w r).
Proof.
  unfold cooldown_invariant, cooldown_deadline. intros Hinv.
  destruct (completes_suspend r) eqn:Hr.
  - destruct r as [[|] [| | | |]|]; try discriminate.
    destruct (step_suspend dev w) as [Hlast Hnb]. cbn zeta in *.
    now rewrite Hlast, Hnb.
  - destruct (step_quiet dev w r Hr) as [Hd Hlast].
    now rewrite Hd, Hlast.
Qed.

(** ** Cooldown *)


(** ** Guards of the entry point *)

(** C5, as the code has it: the entry point looks at the calling context and
    at the action value only.  In a blockable context a recognized action is
    carried out in whatever state the pin is and returns 0: [RESUME] sleeps
    on [next_boot], sets the pin active, logs, sleeps for the startup delay
    and notifies every dependent with [TURN_ON]; [SUSPEND] notifies every
    dependent with [TURN_OFF], then sets the pin inactive and logs;
    [TURN_ON] and [TURN_OFF] make their configure call and log.  An action
    value that is none of the four returns [-ENOTSUP] and leaves the world as
    it is. *)
Theorem action_ignores_state (dev : device) (a : pm_device_action)
        (w : world) :
  can_yield w = true ->
  let r := pd_gpio_pm_action dev a w in
  match a with
  | PM_DEVICE_ACTION_RESUME =>
      let t_on := wake_at (next_boot (data w)) (uptime w) in
      fst r = 0 /\
      exists notes,
        emitted w (snd r) =
          [(uptime w, EvSleep (next_boot (data w)));
           (t_on, EvGpio (GpioSet 1));
           (t_on, EvLog LOG_LEVEL_INF (name dev ++ " is now ON"));
           (t_on, EvSleep (K_USEC (startup_delay_us (config dev))))]
          ++ notes /\
        map snd notes =
          map (fun c => EvChildAction c PM_DEVICE_ACTION_TURN_ON)
              (children dev)
  | PM_DEVICE_ACTION_SUSPEND =>
      fst r = 0 /\
      exists notes,
        emitted w (snd r) =
          notes ++
          [(uptime (snd r), EvGpio (GpioSet 0));
           (uptime (snd r),
            EvLog LOG_LEVEL_INF (name dev ++ " is now OFF"))] /\
        map snd notes =
          map (fun c => EvChildAction c PM_DEVICE_ACTION_TURN_OFF)
              (children dev)
  | PM_DEVICE_ACTION_TURN_ON =>
      fst r = 0 /\
      emitted w (snd r) =
        [(uptime w,
          EvGpio (GpioConfigure
                    (Z.lor GPIO_OUTPUT_INACTIVE
                           (if enable_high_drive (config dev)
                            then GPIO_DS_ALT else 0))));
         (uptime w, EvLog LOG_LEVEL_DBG (name dev ++ " is OFF and powered"))]
  | PM_DEVICE_ACTION_TURN_OFF =>
      fst r = 0 /\
      emitted w (snd r) =
        [(uptime w, EvGpio (GpioConfigure GPIO_DISCONNECTED));
         (uptime w,
          EvLog LOG_LEVEL_DBG (name dev ++ " is OFF and not powered"))]
  | PM_DEVICE_ACTION_INVALID _ => r = (- ENOTSUP, w)
  end.
Proof.
  intros Hy r. subst r. destruct a.
  - destruct (suspend_emitted dev w Hy) as (notes & Hem & Hmap & _).
    cbn zeta in Hem. split.
    + now rewrite (pm_action_suspend dev w Hy).
    + exists notes. split; [exact Hem|exact Hmap].
  - destruct (resume_emitted dev w Hy) as (notes & Hem & Hmap & _).
    cbn zeta in Hem. cbn zeta. split.
    + destruct (pm_action_resume dev w Hy) as (w0 & Heq & _).
      now rewrite Heq.
    + exists notes. split; [exact Hem|exact Hmap].
  - rewrite (pm_action_turn_off dev w Hy). cbn zeta. cbn [fst snd].
    split; [reflexivity|].
    apply emitted_app.
    destruct (_ =? 0); cbn; rewrite <- app_assoc; reflexivity.
  - rewrite (pm_action_turn_on dev w Hy). cbn zeta. cbn [fst snd].
    split; [reflexivity|].
    apply emitted_app.
    destruct (enable_high_drive (config dev)); rewrite ?Z.lor_0_l;
      destruct (_ =? 0); cbn; rewrite <- app_assoc; reflexivity.
  - apply pm_action_invalid, Hy.
Qed.

(** C6: from a context that cannot block, every action value, recognized or
    not, returns [-ENOTSUP] at once: the only call made is the error log, so
    there is no pin call and no notification, and the pin, the clock and
    [next_boot] are as before. *)
Theorem unsupported_context (dev : device) (a : pm_device_action)
        (w : world) :
  can_yield w = false ->
  let r := pd_gpio_pm_action dev a w in
  fst r = - ENOTSUP /\
  emitted w (snd r) =
    [(uptime w,
      EvLog LOG_LEVEL_ERR "Blocking actions cannot run in this context")] /\
  gpio_calls (emitted w (snd r)) = [] /\
  notifications (emitted w (snd r)) = [] /\
  pin_flags (snd r) = pin_flags w /\
  pin_level (snd r) = pin_level w /\
  next_boot (data (snd r)) = next_boot (data w) /\
  uptime (snd r) = uptime w.
Proof.
  intros Hy r. subst r. rewrite (pm_action_cannot_yield dev a w Hy).
  cbn [fst snd].
  assert (Hem : emitted w (record (EvLog LOG_LEVEL_ERR
                  "Blocking actions cannot run in this context") w) =
                [(uptime w, EvLog LOG_LEVEL_ERR
                  "Blocking actions cannot run in this context")])
    by (now apply emitted_app).
  rewrite Hem. repeat split.
Qed.

(** ** Fan-out *)

(** C7: in a blockable context the notifications a [RESUME] emits are exactly
    one [TURN_ON] per registered dependent, in registration order, and those
    a [SUSPEND] emits exactly one [TURN_OFF] per registered dependent, in
    registration order; so there are as many as dependents, and a dependent
    is notified as often as it is registered. *)
Theorem fan_out_complete (dev : device) (w : world) :
  can_yield w = true ->
  let on := notifications
              (emitted w (snd (pd_gpio_pm_action
                                 dev PM_DEVICE_ACTION_RESUME w))) in
  let off := notifications
               (emitted w (snd (pd_gpio_pm_action
                                  dev PM_DEVICE_ACTION_SUSPEND w))) in
  on = map (fun c => EvChildAction c PM_DEVICE_ACTION_TURN_ON)
           (children dev) /\
  off = map (fun c => EvChildAction c PM_DEVICE_ACTION_TURN_OFF)
            (children dev) /\
  List.length on = List.length (children dev) /\
  List.length off = List.length (children dev) /\
  (forall c,
      count_occ event_eq_dec on (EvChildAction c PM_DEVICE_ACTION_TURN_ON) =
        count_occ string_dec (children dev) c /\
      count_occ event_eq_dec off (EvChildAction c PM_DEVICE_ACTION_TURN_OFF) =
        count_occ string_dec (children dev) c) /\
  (NoDup (children dev) ->
   forall c,
     In c (children dev) ->
     count_occ event_eq_dec on (EvChildAction c PM_DEVICE_ACTION_TURN_ON) = 1%nat
     /\
     count_occ event_eq_dec off (EvChildAction c PM_DEVICE_ACTION_TURN_OFF)
     = 1%nat).
Proof.
  intros Hy on off.
  assert (Hon : on = map (fun c => EvChildAction c PM_DEVICE_ACTION_TURN_ON)
                         (children dev)).
  { subst on. destruct (resume_emitted dev w Hy) as (notes & Hem & Hmap & _).
    cbn zeta in Hem. rewrite Hem. unfold notifications.
    rewrite map_app, filter_app, Hmap. cbn.
    apply notes_all_notifications. }
  assert (Hoff : off = map (fun c => EvChildAction c PM_DEVICE_ACTION_TURN_OFF)
                           (children dev)).
  { subst off. destruct (suspend_emitted dev w Hy) as (notes & Hem & Hmap & _).
    cbn zeta in Hem. rewrite Hem. unfold notifications.
    rewrite map_app, filter_app, Hmap. cbn. rewrite app_nil_r.
    apply notes_all_notifications. }
  assert (Hcount : forall c,
             count_occ event_eq_dec on
                       (EvChildAction c PM_DEVICE_ACTION_TURN_ON) =
               count_occ string_dec (children dev) c /\
             count_occ event_eq_dec off
                       (EvChildAction c PM_DEVICE_ACTION_TURN_OFF) =
               count_occ string_dec (children dev) c).
  { intros c. rewrite Hon, Hoff. split; symmetry;
      apply count_occ_map; intros x y Heq; now injection Heq. }
  split; [exact Hon|]. split; [exact Hoff|].
  split; [now rewrite Hon, length_map|].
  split; [now rewrite Hoff, length_map|].
  split; [exact Hcount|].
  intros Hnd c Hin.
  pose proof (proj1 (NoDup_count_occ' string_dec (children dev)) Hnd c Hin)
    as Hone.
  destruct (Hcount c) as [H1 H2]. now rewrite H1, H2.
Qed.

(** ** The pin-configure steps and construction *)

(** C8: [TURN_OFF] on an instance whose pin is already disconnected returns
    0 and changes nothing of the instance: the pin stays disconnected whether
    or not the port accepts the call, its level, [next_boot] and the clock
    are as before, and no dependent is notified. *)
Theorem turn_off_idempotent (dev : device) (w : world) :
  can_yield w = true ->
  observed_state w = DISCONNECTED ->
  let r := pd_gpio_pm_action dev PM_DEVICE_ACTION_TURN_OFF w in
  fst r = 0 /\
  observed_state (snd r) = DISCONNECTED /\
  pin_flags (snd r) = pin_flags w /\
  pin_level (snd r) = pin_level w /\
  data (snd r) = data w /\
  uptime (snd r) = uptime w /\
  can_yield (snd r) = can_yield w /\
  notifications (emitted w (snd r)) = [] /\
  gpio_calls (emitted w (snd r)) =
    [(uptime w, EvGpio (GpioConfigure GPIO_DISCONNECTED))].
Proof.
  intros Hy Hst r. subst r.
  assert (Hflags : pin_flags w = GPIO_DISCONNECTED).
  { unfold observed_state in Hst.
    destruct (pin_flags w =? GPIO_DISCONNECTED) eqn:E.
    - now apply Z.eqb_eq.
    - now destruct (pin_level w). }
  rewrite (pm_action_turn_off dev w Hy). cbn zeta. cbn [fst snd].
  set (w' := record _ _).
  assert (Hem : emitted w w' =
                [(uptime w, EvGpio (GpioConfigure GPIO_DISCONNECTED));
                 (uptime w, EvLog LOG_LEVEL_DBG
                                  (name dev ++ " is OFF and not powered"))]).
  { apply emitted_app. subst w'.
    destruct (_ =? 0); cbn; rewrite <- app_assoc; reflexivity. }
  assert (Hpf : pin_flags w' = pin_flags w).
  { subst w'. destruct (_ =? 0); cbn; congruence. }
  rewrite Hem. unfold observed_state. rewrite Hpf, Hflags, Z.eqb_refl.
  subst w'. unfold configure_pin. rewrite Z.eqb_refl.
  destruct (_ =? 0); cbn; repeat split.
Qed.

(** C9: construction returns [-ENODEV] when the GPIO port is not ready and
    [-EINVAL] when there is a parent domain that is not ready, in both cases
    having done nothing but log the error, the PM core never reached.  With
    both ready it stores the seed, runs the [TURN_OFF] step whatever the pin
    is, and hands the instance to the PM core: up to there the only pin call
    is the disconnect, which leaves the pin disconnected when the port
    accepts it, and the level is untouched. *)
Theorem init_checks_then_disconnects (dev : device) (w : world) :
  let cfg := config dev in
  (device_is_ready (port (enable cfg)) = false ->
   pd_gpio_init dev w =
   (- ENODEV,
    record (EvLog LOG_LEVEL_ERR
                  ("GPIO port " ++ port (enable cfg) ++ " is not ready")) w)) /\
  (forall domain,
      device_is_ready (port (enable cfg)) = true ->
      pm_domain dev = Some domain ->
      device_is_ready domain = false ->
      pd_gpio_init dev w =
      (- EINVAL,
       record (EvLog LOG_LEVEL_ERR
                     ("Invalid domain sequencing! " ++ name dev
                      ++ " depends on " ++ domain)) w)) /\
  (device_is_ready (port (enable cfg)) = true ->
   match pm_domain dev with
   | Some domain => device_is_ready domain = true
   | None => True
   end ->
   can_yield w = true ->
   exists w0,
     pd_gpio_init dev w = pm_device_driver_init dev pd_gpio_pm_action w0 /\
     next_boot (data w0) = K_TIMEOUT_ABS_US (off_on_delay_us cfg) /\
     emitted w w0 =
       [(uptime w, EvGpio (GpioConfigure GPIO_DISCONNECTED));
        (uptime w, EvLog LOG_LEVEL_DBG
                         (name dev ++ " is OFF and not powered"))] /\
     pin_level w0 = pin_level w /\
     uptime w0 = uptime w /\
     (gpio_port_api (GpioConfigure GPIO_DISCONNECTED) (uptime w) = 0 ->
      observed_state w0 = DISCONNECTED)).
Proof.
  intros cfg. subst cfg. repeat split.
  - intros Hport. unfold pd_gpio_init. rewrite Hport. reflexivity.
  - intros domain Hport Hdom Hnr. unfold pd_gpio_init.
    rewrite Hport, Hdom, Hnr. reflexivity.
  - intros Hport Hdom Hy. unfold pd_gpio_init. rewrite Hport. cbn [negb].
    assert (Hd : match pm_domain dev with
                 | Some domain => negb (device_is_ready domain)
                 | None => false
                 end = false).
    { destruct (pm_domain dev); [now rewrite Hdom|reflexivity]. }
    rewrite Hd. unfold bind at 1 2, store_next_boot, modify.
    set (w1 := note _ (set_data _ w)).
    assert (Hy1 : can_yield w1 = true) by exact Hy.
    rewrite (pm_action_turn_off dev w1 Hy1). cbn zeta.
    match goal with
    | |- context [pm_device_driver_init _ _ ?w0] => exists w0
    end.
    split; [reflexivity|].
    subst w1. unfold configure_pin. rewrite Z.eqb_refl.
    cbn [uptime set_data note].
    destruct (gpio_port_api _ (uptime w) =? 0) eqn:E; cbn;
      (repeat split;
       [apply emitted_app; cbn; rewrite <- app_assoc; reflexivity|]).
    + intros _. unfold observed_state. cbn. now rewrite Z.eqb_refl.
    + intros H0. rewrite H0 in E. discriminate.
Qed.

(** C10: in a blockable context each of the four actions returns 0, on every
    platform: whatever status the GPIO port gives to the pin calls and the
    dependents give to their notifications. *)
Theorem recognized_action_returns_zero (dev : device)
        (a : pm_device_action) (w : world) :
  can_yield w = true ->
  recognized a = true ->
  fst (pd_gpio_pm_action dev a w) = 0.
Proof.
  intros Hy Hrec. destruct a; try discriminate.
  - now rewrite (pm_action_suspend dev w Hy).
  - destruct (pm_action_resume dev w Hy) as (w0 & Heq & _). now rewrite Heq.
  - now rewrite (pm_action_turn_off dev w Hy).
  - now rewrite (pm_action_turn_on dev w Hy).
Qed.

End Properties.

(** * The scenario of the spec, on the sample board *)

Lemma resume_sequence_witness :
  can_yield driven_off = true /\
  exists notes,
    trace (snd (pd_gpio_pm_action (P := board) rail
                                  PM_DEVICE_ACTION_RESUME driven_off)) =
      trace driven_off ++
      [(0, EvSleep (K_TIMEOUT_ABS_TICKS 50));
       (50, EvGpio (GpioSet 1));
       (50, EvLog LOG_LEVEL_INF "rail is now ON");
       (50, EvSleep (K_TICKS 10))] ++ notes /\
    map snd notes =
      [EvChildAction "d1" PM_DEVICE_ACTION_TURN_ON;
       EvChildAction "d2" PM_DEVICE_ACTION_TURN_ON] /\
    Forall (fun te => 50 + 10 <= fst te) notes.
Proof.
  split; [reflexivity|].
  destruct (resume_sequence (P := board) rail driven_off eq_refl)
    as (notes & Htr & Hmap & Hall & _).
  exists notes. split; [exact Htr|]. split; [exact Hmap|exact Hall].
Defined.


(** C3 fails on the code where the cooldown does not fit 32 bits of ticks.
    At 4 MHz a cooldown of [2 ^ 30] microseconds is [2 ^ 32] ticks, which
    construction seeds in full, but [SUSPEND] adds the 32-bit conversion,
    which is 0: the [RESUME] that follows sets the pin active in the very
    tick in which the [SUSPEND] set it inactive. *)
Lemma cooldown_lost_on_fast_tick :
  let off := snd (pd_gpio_pm_action (P := fast_board) slow_rail
                                    PM_DEVICE_ACTION_SUSPEND fast_powered_on) in
  let on := snd (pd_gpio_pm_action (P := fast_board) slow_rail
                                   PM_DEVICE_ACTION_RESUME off) in
  can_yield fast_powered_on = true /\
  can_yield off = true /\
  next_boot (data fast_powered_on) =
    K_TIMEOUT_ABS_TICKS (k_us_to_ticks_ceil64 (P := fast_board) (2 ^ 30)) /\
  k_us_to_ticks_ceil64 (P := fast_board) (2 ^ 30) = 2 ^ 32 /\
  k_us_to_ticks_ceil32 (P := fast_board) (2 ^ 30) = 0 /\
  gpio_calls (emitted fast_powered_on off) =
    [(4294971296, EvGpio (GpioSet 0))] /\
  uptime off = 4294971296 /\
  gpio_calls (emitted off on) = [(4294971296, EvGpio (GpioSet 1))].
Proof. vm_compute. repeat split. Qed.


(** C5 fails on the code: with the instance [ON], where the table of the
    spec has no row for [RESUME], a [RESUME] from a blockable context
    returns 0, sets the pin active again and notifies both dependents. *)
Lemma resume_while_on_is_carried_out :
  can_yield powered_on = true /\
  observed_state (P := board) powered_on = ON /\
  spec_transition (observed_state (P := board) powered_on)
                  PM_DEVICE_ACTION_RESUME = None /\
  fst (pd_gpio_pm_action (P := board) rail
                         PM_DEVICE_ACTION_RESUME powered_on) = 0 /\
  gpio_calls
    (emitted powered_on
             (snd (pd_gpio_pm_action (P := board) rail
                                     PM_DEVICE_ACTION_RESUME powered_on))) =
    [(60, EvGpio (GpioSet 1))] /\
  notifications
    (emitted powered_on
             (snd (pd_gpio_pm_action (P := board) rail
                                     PM_DEVICE_ACTION_RESUME powered_on))) =
    [EvChildAction "d1" PM_DEVICE_ACTION_TURN_ON;
     EvChildAction "d2" PM_DEVICE_ACTION_TURN_ON].
Proof. vm_compute. repeat split. Qed.

Lemma action_ignores_state_witness :
  can_yield powered_on = true /\
  (fst (pd_gpio_pm_action (P := board) rail
                          PM_DEVICE_ACTION_RESUME powered_on) = 0 /\
   exists notes,
     emitted powered_on
             (snd (pd_gpio_pm_action (P := board) rail
                                     PM_DEVICE_ACTION_RESUME powered_on)) =
       [(60, EvSleep (K_TIMEOUT_ABS_TICKS 50));
        (60, EvGpio (GpioSet 1));
        (60, EvLog LOG_LEVEL_INF "rail is now ON");
        (60, EvSleep (K_TICKS 10))] ++ notes /\
     map snd notes =
       [EvChildAction "d1" PM_DEVICE_ACTION_TURN_ON;
        EvChildAction "d2" PM_DEVICE_ACTION_TURN_ON]) /\
  pd_gpio_pm_action (P := board) rail (PM_DEVICE_ACTION_INVALID 9) powered_on =
  (- 134, powered_on).
Proof.
  split; [reflexivity|].
  pose proof (action_ignores_state (P := board) rail) as H.
  split.
  - exact (H PM_DEVICE_ACTION_RESUME powered_on eq_refl).
  - exact (H (PM_DEVICE_ACTION_INVALID 9) powered_on eq_refl).
Defined.

Lemma unsupported_context_witness :
  can_yield (set_can_yield false powered_on) = false /\
  fst (pd_gpio_pm_action (P := board) rail PM_DEVICE_ACTION_SUSPEND
                         (set_can_yield false powered_on)) = - 134 /\
  gpio_calls
    (emitted (set_can_yield false powered_on)
             (snd (pd_gpio_pm_action (P := board) rail PM_DEVICE_ACTION_SUSPEND
                                     (set_can_yield false powered_on)))) = [].
Proof.
  split; [reflexivity|].
  destruct (unsupported_context (P := board) rail PM_DEVICE_ACTION_SUSPEND
                                (set_can_yield false powered_on) eq_refl)
    as (Hrc & _ & Hgpio & _).
  split; [exact Hrc|exact Hgpio].
Defined.

Lemma fan_out_complete_witness :
  can_yield powered_on = true /\
  notifications
    (emitted powered_on
             (snd (pd_gpio_pm_action (P := board) rail
                                     PM_DEVICE_ACTION_SUSPEND powered_on))) =
  [EvChildAction "d1" PM_DEVICE_ACTION_TURN_OFF;
   EvChildAction "d2" PM_DEVICE_ACTION_TURN_OFF].
Proof.
  split; [reflexivity|].
  exact (proj1 (proj2 (fan_out_complete (P := board) rail powered_on eq_refl))).
Defined.

Lemma turn_off_idempotent_witness :
  can_yield constructed = true /\
  observed_state (P := board) constructed = DISCONNECTED /\
  fst (pd_gpio_pm_action (P := board) rail
                         PM_DEVICE_ACTION_TURN_OFF constructed) = 0 /\
  observed_state (P := board)
    (snd (pd_gpio_pm_action (P := board) rail
                            PM_DEVICE_ACTION_TURN_OFF constructed)) =
  DISCONNECTED.
Proof.
  split; [reflexivity|]. split; [reflexivity|].
  destruct (turn_off_idempotent (P := board) rail constructed eq_refl eq_refl)
    as (Hrc & Hst & _).
  split; [exact Hrc|exact Hst].
Defined.

Lemma init_checks_then_disconnects_witness :
  pd_gpio_init (P := board_port_down) rail boot =
  (- 19, record (EvLog LOG_LEVEL_ERR "GPIO port gpio0 is not ready") boot) /\
  exists w0,
    pd_gpio_init (P := board) rail boot = (0, w0) /\
    next_boot (data w0) = K_TIMEOUT_ABS_TICKS 50 /\
    observed_state (P := board) w0 = DISCONNECTED.
Proof.
  split.
  - exact (proj1 (init_checks_then_disconnects (P := board_port_down)
                                               rail boot) eq_refl).
  - destruct (proj2 (proj2 (init_checks_then_disconnects (P := board)
                                                         rail boot))
                    eq_refl eq_refl eq_refl)
      as (w0 & Heq & Hnb & _ & _ & _ & Hst).
    exists w0. split; [exact Heq|]. split; [exact Hnb|exact (Hst eq_refl)].
Defined.

Lemma recognized_action_returns_zero_witness :
  can_yield powered_on = true /\
  recognized PM_DEVICE_ACTION_SUSPEND = true /\
  gpio_port_api (platform := faulty_board) (GpioSet 0) 66 = - 5 /\
  fst (pd_gpio_pm_action (P := faulty_board) rail
                         PM_DEVICE_ACTION_SUSPEND powered_on) = 0.
Proof.
  split; [reflexivity|]. split; [reflexivity|]. split; [reflexivity|].
  exact (recognized_action_returns_zero (P := faulty_board) rail
           PM_DEVICE_ACTION_SUSPEND powered_on eq_refl eq_refl).
Defined.

(** * Further properties of the driver *)

Section MoreProperties.

Context {P : platform}.

Lemma land_lor_absorb (a b : Z) : Z.land (Z.lor a b) a = a.
Proof.
  apply Z.bits_inj'. intros n _.
  rewrite Z.land_spec, Z.lor_spec. now destruct (Z.testbit a n), (Z.testbit b n).
Qed.

Lemma notes_no_sleep (a : pm_device_action) (cs : list device_ref) :
  forall notes,
    map snd notes = map (fun c => EvChildAction c a) cs ->
    sleeps notes = [].
Proof.
  induction cs as [|c cs IH]; intros [|[t e] notes] H; cbn in H;
    try discriminate; [reflexivity|].
  injection H as He Hrest. subst e. cbn. now apply IH.
Qed.

(** ** The pin-configure steps *)

(** X1: [TURN_ON] makes one pin call, a configure whose flag word has every
    bit of [GPIO_OUTPUT_INACTIVE], every bit of [GPIO_DS_ALT] when
    [enable_high_drive] is set, and is [GPIO_OUTPUT_INACTIVE] itself when it
    is not; the pin takes that configuration when the port accepts the call
    and keeps its own when it does not. *)
Theorem turn_on_configures_output (dev : device) (w : world) :
  can_yield w = true ->
  let w' := snd (pd_gpio_pm_action dev PM_DEVICE_ACTION_TURN_ON w) in
  exists flags,
    gpio_calls (emitted w w') = [(uptime w, EvGpio (GpioConfigure flags))] /\
    Z.land flags GPIO_OUTPUT_INACTIVE = GPIO_OUTPUT_INACTIVE /\
    (enable_high_drive (config dev) = true ->
     Z.land flags GPIO_DS_ALT = GPIO_DS_ALT) /\
    (enable_high_drive (config dev) = false -> flags = GPIO_OUTPUT_INACTIVE) /\
    pin_flags w' =
      (if gpio_port_api (GpioConfigure flags) (uptime w) =? 0
       then flags else pin_flags w).
Proof.
  intros Hy w'. subst w'. rewrite (pm_action_turn_on dev w Hy).
  cbn zeta. cbn [snd].
  set (flags := Z.lor GPIO_OUTPUT_INACTIVE _).
  exists flags. split; [|split; [|split; [|split]]].
  - erewrite emitted_app;
      [|destruct (_ =? 0); cbn; rewrite <- app_assoc; reflexivity].
    reflexivity.
  - subst flags. apply land_lor_absorb.
  - intros Hhd. subst flags. rewrite Hhd, Z.lor_0_l, Z.lor_comm.
    apply land_lor_absorb.
  - intros Hhd. subst flags. rewrite Hhd. apply Z.lor_0_r.
  - now destruct (_ =? 0).
Qed.

(** X2: [TURN_ON] and [TURN_OFF] never block and never make the pin active:
    the clock, [next_boot] and the journal are as before, no [k_sleep] is
    called and no dependent is notified; [TURN_OFF] leaves the pin level as
    it is, and [TURN_ON] leaves the pin inactive when the port accepts a flag
    word other than [GPIO_DISCONNECTED] and leaves the level as it is
    otherwise. *)
Theorem configure_steps_do_not_block (dev : device) (a : pm_device_action)
        (w : world) :
  can_yield w = true ->
  a = PM_DEVICE_ACTION_TURN_ON \/ a = PM_DEVICE_ACTION_TURN_OFF ->
  let w' := snd (pd_gpio_pm_action dev a w) in
  uptime w' = uptime w /\
  data w' = data w /\
  journal w' = journal w /\
  sleeps (emitted w w') = [] /\
  notifications (emitted w w') = [] /\
  (pin_level w' = true -> pin_level w = true) /\
  (a = PM_DEVICE_ACTION_TURN_OFF -> pin_level w' = pin_level w) /\
  (a = PM_DEVICE_ACTION_TURN_ON ->
   pin_level w' =
     (if (gpio_port_api (GpioConfigure (turn_on_flags dev)) (uptime w) =? 0)
         && negb (turn_on_flags dev =? GPIO_DISCONNECTED)
      then false else pin_level w)).
Proof.
  intros Hy [-> | ->] w'; subst w'.
  - rewrite (pm_action_turn_on dev w Hy). cbn zeta. cbn [snd].
    fold (turn_on_flags dev).
    erewrite emitted_app;
      [|destruct (_ =? 0); cbn; rewrite <- app_assoc; reflexivity].
    unfold configure_pin.
    replace (Z.land (turn_on_flags dev) GPIO_OUTPUT_INACTIVE
             =? GPIO_OUTPUT_INACTIVE) with true
      by (symmetry; apply Z.eqb_eq; apply land_lor_absorb).
    destruct (gpio_port_api _ _ =? 0);
      destruct (turn_on_flags dev =? GPIO_DISCONNECTED); cbn;
      repeat split; auto; discriminate.
  - rewrite (pm_action_turn_off dev w Hy). cbn zeta. cbn [snd].
    erewrite emitted_app;
      [|destruct (_ =? 0); cbn; rewrite <- app_assoc; reflexivity].
    unfold configure_pin. rewrite Z.eqb_refl.
    destruct (_ =? 0); cbn; repeat split; auto; discriminate.
Qed.

(** ** The timed actions *)

(** X3: [RESUME] calls [k_sleep] exactly twice, on [next_boot] when it starts
    and on the startup delay right after the pin call, and returns no earlier
    than the startup delay after the pin call; [SUSPEND] never calls
    [k_sleep].  Neither reconfigures the pin. *)
Theorem only_resume_sleeps (dev : device) (w : world) :
  can_yield w = true ->
  let on := snd (pd_gpio_pm_action dev PM_DEVICE_ACTION_RESUME w) in
  let off := snd (pd_gpio_pm_action dev PM_DEVICE_ACTION_SUSPEND w) in
  let t_on := wake_at (next_boot (data w)) (uptime w) in
  let startup := K_USEC (startup_delay_us (config dev)) in
  sleeps (emitted w on) =
    [(uptime w, EvSleep (next_boot (data w))); (t_on, EvSleep startup)] /\
  wake_at startup t_on <= uptime on /\
  pin_flags on = pin_flags w /\
  sleeps (emitted w off) = [] /\
  pin_flags off = pin_flags w.
Proof.
  intros Hy on off t_on startup.
  destruct (resume_emitted dev w Hy) as (notes & Hem & Hmap & _).
  destruct (pm_action_resume dev w Hy)
    as (w0 & Heq & _ & Hup & _ & _ & Hpf & _).
  destruct (children_action_run_spec (children dev) PM_DEVICE_ACTION_TURN_ON w0)
    as (_ & _ & _ & _ & Hmono & _ & Hpf' & _).
  destruct (suspend_emitted dev w Hy) as (notes' & Hem' & Hmap' & _).
  cbn zeta in *. fold on in Hem. fold off in Hem'. fold t_on in Hem, Hup.
  assert (Hon : on = snd (children_action_run
                            (children dev) PM_DEVICE_ACTION_TURN_ON w0))
    by (subst on; now rewrite Heq).
  split; [|split; [|split; [|split]]].
  - rewrite Hem. unfold sleeps at 1. rewrite filter_app.
    fold (sleeps notes). rewrite (notes_no_sleep _ _ _ Hmap). reflexivity.
  - rewrite Hon. subst startup. cbn [wake_at K_USEC]. lia.
  - rewrite Hon. congruence.
  - rewrite Hem'. unfold sleeps at 1. rewrite filter_app.
    fold (sleeps notes'). rewrite (notes_no_sleep _ _ _ Hmap'). reflexivity.
  - subst off. rewrite (pm_action_suspend dev w Hy). cbn zeta. cbn [snd].
    destruct (children_action_run_spec
                (children dev) PM_DEVICE_ACTION_TURN_OFF w)
      as (_ & _ & _ & _ & _ & _ & Hpf2 & _).
    cbn zeta in Hpf2. destruct (_ =? 0); cbn; exact Hpf2.
Qed.

(** X4: [RESUME] does not look at what the port answers to the pin call: the
    pin is active afterwards when the port accepted the call and as before
    when it did not, and in both cases every dependent is told [TURN_ON] and
    the action returns 0. *)
Theorem resume_notifies_whatever_the_port (dev : device) (w : world) :
  can_yield w = true ->
  let r := pd_gpio_pm_action dev PM_DEVICE_ACTION_RESUME w in
  let t_on := wake_at (next_boot (data w)) (uptime w) in
  fst r = 0 /\
  pin_level (snd r) =
    (if gpio_port_api (GpioSet 1) t_on =? 0 then true else pin_level w) /\
  notifications (emitted w (snd r)) =
    map (fun c => EvChildAction c PM_DEVICE_ACTION_TURN_ON) (children dev).
Proof.
  intros Hy r t_on.
  destruct (resume_emitted dev w Hy) as (notes & Hem & Hmap & _).
  destruct (pm_action_resume dev w Hy)
    as (w0 & Heq & _ & _ & _ & _ & _ & Hlvl).
  destruct (children_action_run_spec (children dev) PM_DEVICE_ACTION_TURN_ON w0)
    as (_ & _ & _ & _ & _ & _ & _ & Hlvl' & _).
  cbn zeta in *. subst r. rewrite Heq in *. cbn [fst snd] in *.
  split; [reflexivity|]. split; [now rewrite Hlvl', Hlvl|].
  rewrite Hem. unfold notifications.
  rewrite map_app, filter_app, Hmap. cbn.
  apply notes_all_notifications.
Qed.


(** ** Construction from a context that cannot block *)

(** X6: [pd_gpio_init] does not look at what its [TURN_OFF] step returns.
    Run from a context that cannot block, with the port and the parent
    ready, it still stores the seed and still hands the instance to the PM
    core, but the pin was never disconnected: the only call made is the
    error log of the guard. *)
Theorem init_cannot_yield_skips_disconnect (dev : device) (w : world) :
  device_is_ready (port (enable (config dev))) = true ->
  match pm_domain dev with
  | Some domain => device_is_ready domain = true
  | None => True
  end ->
  can_yield w = false ->
  exists w0,
    pd_gpio_init dev w = pm_device_driver_init dev pd_gpio_pm_action w0 /\
    next_boot (data w0) = K_TIMEOUT_ABS_US (off_on_delay_us (config dev)) /\
    emitted w w0 =
      [(uptime w,
        EvLog LOG_LEVEL_ERR "Blocking actions cannot run in this context")] /\
    pin_flags w0 = pin_flags w /\
    pin_level w0 = pin_level w.
Proof.
  intros Hport Hdom Hy. unfold pd_gpio_init. rewrite Hport. cbn [negb].
  assert (Hd : match pm_domain dev with
               | Some domain => negb (device_is_ready domain)
               | None => false
               end = false).
  { destruct (pm_domain dev); [now rewrite Hdom|reflexivity]. }
  rewrite Hd. unfold bind at 1 2, store_next_boot, modify.
  set (w1 := note _ (set_data _ w)).
  assert (Hy1 : can_yield w1 = false) by exact Hy.
  rewrite (pm_action_cannot_yield dev PM_DEVICE_ACTION_TURN_OFF w1 Hy1).
  match goal with
  | |- context [pm_device_driver_init _ _ ?w0] => exists w0
  end.
  split; [reflexivity|]. subst w1. cbn. repeat split.
  now apply emitted_app.
Qed.

(** ** The pin follows the table on the rows the table has *)

(** The pin after a call from a blockable context, on a port that accepts
    every call. *)
Lemma step_pin_state (dev : device) (a : pm_device_action) (w : world) :
  (forall call t, gpio_port_api call t = 0) ->
  let w' := step dev w (Call true a) in
  match a with
  | PM_DEVICE_ACTION_TURN_ON =>
      pin_flags w' = turn_on_flags dev /\
      (turn_on_flags dev <> GPIO_DISCONNECTED -> pin_level w' = false)
  | PM_DEVICE_ACTION_TURN_OFF =>
      pin_flags w' = GPIO_DISCONNECTED /\ pin_level w' = pin_level w
  | PM_DEVICE_ACTION_RESUME =>
      pin_flags w' = pin_flags w /\ pin_level w' = true
  | PM_DEVICE_ACTION_SUSPEND =>
      pin_flags w' = pin_flags w /\ pin_level w' = false
  | PM_DEVICE_ACTION_INVALID _ =>
      pin_flags w' = pin_flags w /\ pin_level w' = pin_level w
  end.
Proof.
  intros Hport. cbn [step].
  assert (Hy : can_yield (set_can_yield true w) = true) by reflexivity.
  destruct a.
  - rewrite (pm_action_suspend dev _ Hy). cbn zeta. cbn [snd].
    destruct (children_action_run_spec
                (children dev) PM_DEVICE_ACTION_TURN_OFF (set_can_yield true w))
      as (_ & _ & _ & _ & _ & _ & Hpf & _).
    cbn zeta in Hpf. rewrite Hport. cbn. now rewrite Hpf.
  - destruct (pm_action_resume dev _ Hy)
      as (w0 & Heq & _ & _ & _ & _ & Hpf & Hlvl).
    destruct (children_action_run_spec
                (children dev) PM_DEVICE_ACTION_TURN_ON w0)
      as (_ & _ & _ & _ & _ & _ & Hpf' & Hlvl' & _).
    cbn zeta in *. rewrite Heq. cbn [snd].
    rewrite Hport in Hlvl. cbn in Hlvl, Hpf. split; congruence.
  - rewrite (pm_action_turn_off dev _ Hy). cbn zeta. cbn [snd].
    rewrite Hport. unfold configure_pin. cbn. rewrite Z.eqb_refl. now split.
  - rewrite (pm_action_turn_on dev _ Hy). cbn zeta. cbn [snd].
    fold (turn_on_flags dev). rewrite Hport. unfold configure_pin.
    replace (Z.land (turn_on_flags dev) GPIO_OUTPUT_INACTIVE
             =? GPIO_OUTPUT_INACTIVE) with true
      by (symmetry; apply Z.eqb_eq; apply land_lor_absorb).
    cbn. split; [reflexivity|].
    intros Hne. apply Z.eqb_neq in Hne. now rewrite Hne.
  - rewrite (pm_action_invalid dev _ _ Hy). cbn. now split.
Qed.

Lemma step_follows_table (dev : device) (a : pm_device_action) (w : world)
      (s : pd_state) :
  (forall call t, gpio_port_api call t = 0) ->
  turn_on_flags dev <> GPIO_DISCONNECTED ->
  (observed_state w = DISCONNECTED -> pin_level w = false) ->
  spec_transition (observed_state w) a = Some s ->
  let w' := step dev w (Call true a) in
  observed_state w' = s /\
  (observed_state w' = DISCONNECTED -> pin_level w' = false).
Proof.
  intros Hport Hflags Hcons Hrow w'.
  pose proof (step_pin_state dev a w Hport) as Hpin. cbn zeta in Hpin.
  fold w' in Hpin.
  pose proof (proj2 (Z.eqb_neq _ _) Hflags) as Hflagsb.
  unfold observed_state in *.
  destruct (pin_flags w =? GPIO_DISCONNECTED) eqn:Edisc.
  - specialize (Hcons eq_refl).
    destruct a; cbn in Hrow; try discriminate;
      injection Hrow as <-; destruct Hpin as [Hpf Hlvl];
      try specialize (Hlvl Hflags);
      rewrite Hpf, Hlvl, ?Hcons, ?Hflagsb, ?Z.eqb_refl; split; auto;
      discriminate.
  - destruct (pin_level w) eqn:Elvl;
      destruct a; cbn in Hrow; try discriminate;
      injection Hrow as <-; destruct Hpin as [Hpf Hlvl];
      try specialize (Hlvl Hflags);
      rewrite Hpf, Hlvl, ?Edisc, ?Z.eqb_refl; split; auto; discriminate.
Qed.

(** X7: on a port that accepts every call, with a [TURN_ON] flag word that
    differs from [GPIO_DISCONNECTED], a sequence of actions that the
    transition table allows from the state the pin shows, issued from a
    blockable context, leaves the pin in the state the table ends in. *)
Theorem valid_runs_follow_table (dev : device)
        (acts : list pm_device_action) :
  forall (w : world) (s : pd_state),
    (forall call t, gpio_port_api call t = 0) ->
    turn_on_flags dev <> GPIO_DISCONNECTED ->
    (observed_state w = DISCONNECTED -> pin_level w = false) ->
    spec_run (observed_state w) acts = Some s ->
    observed_state (run dev (map (Call true) acts) w) = s.
Proof.
  induction acts as [|a acts IH]; intros w s Hport Hflags Hcons Hrun.
  - cbn in *. congruence.
  - cbn [spec_run] in Hrun.
    destruct (spec_transition (observed_state w) a) as [s1|] eqn:Hrow;
      [|discriminate].
    destruct (step_follows_table dev a w s1 Hport Hflags Hcons Hrow)
      as [Hs1 Hcons1].
    cbn [map run fold_left]. apply IH; auto.
    now rewrite Hs1.
Qed.

(** ** The cooldown over whole runs *)

Lemma cooldown_respected_app (c d : Z) (tr evs : list (Z * event)) :
  forall acc,
    let dl := fun acc => match acc with Some T => T + c | None => d end in
    cooldown_respected c (dl acc) (tr ++ evs) =
    cooldown_respected c (dl acc) tr &&
    cooldown_respected c (dl (fold_left note_deenergize tr acc)) evs.
Proof.
  induction tr as [|[t e] tr IH]; intros acc dl; [reflexivity|].
  cbn [app cooldown_respected fold_left].
  unfold note_deenergize at 2. cbn [fst snd].
  destruct (is_deenergize e).
  - exact (IH (Some t)).
  - destruct (is_energize e).
    + rewrite <- andb_assoc. f_equal. exact (IH acc).
    + exact (IH acc).
Qed.

Lemma never_energized_early_app (dev : device) (tr evs : list (Z * event)) :
  never_energized_early dev (tr ++ evs) =
  never_energized_early dev tr &&
  cooldown_respected (k_us_to_ticks_ceil32 (off_on_delay_us (config dev)))
                     (cooldown_deadline dev tr) evs.
Proof.
  unfold never_energized_early.
  exact (cooldown_respected_app _ _ tr evs None).
Qed.

Lemma notes_respect_cooldown (a : pm_device_action) (cs : list device_ref)
      (c d : Z) (rest : list (Z * event)) :
  forall notes,
    map snd notes = map (fun c => EvChildAction c a) cs ->
    cooldown_respected c d (notes ++ rest) = cooldown_respected c d rest.
Proof.
  induction cs as [|x cs IH]; intros [|[t e] notes] H; cbn in H;
    try discriminate; [reflexivity|].
  injection H as He Hrest. subst e. cbn. now apply IH.
Qed.

Lemma step_never_energizes_early (dev : device) (w : world) (r : request) :
  cooldown_invariant dev w ->
  never_energized_early dev (trace w) = true ->
  never_energized_early dev (trace (step dev w r)) = true.
Proof.
  intros Hinv Hok.
  assert (Happ : forall w' evs,
             trace w' = trace w ++ evs ->
             cooldown_respected
               (k_us_to_ticks_ceil32 (off_on_delay_us (config dev)))
               (cooldown_deadline dev (trace w)) evs = true ->
             never_energized_early dev (trace w') = true).
  { intros w' evs -> Hevs. now rewrite never_energized_early_app, Hok, Hevs. }
  destruct r as [[|] a|n]; cbn [step].
  - assert (Hy : can_yield (set_can_yield true w) = true) by reflexivity.
    destruct a.
    + rewrite (pm_action_suspend dev _ Hy). cbn zeta. cbn [snd].
      destruct (children_action_run_spec
                  (children dev) PM_DEVICE_ACTION_TURN_OFF
                  (set_can_yield true w))
        as (notes & Hntr & Hmap & _).
      cbn zeta in Hntr.
      set (w1 := snd (children_action_run _ _ _)) in *.
      eapply Happ.
      * destruct (_ =? 0); cbn; rewrite Hntr, <- !app_assoc; reflexivity.
      * rewrite (notes_respect_cooldown _ _ _ _ _ _ Hmap). reflexivity.
    + destruct (pm_action_resume dev _ Hy) as (w0 & Heq & Htr & _).
      destruct (children_action_run_spec
                  (children dev) PM_DEVICE_ACTION_TURN_ON w0)
        as (notes & Hntr & Hmap & _).
      cbn zeta in Hntr. rewrite Heq. cbn [snd].
      eapply Happ.
      * rewrite Hntr, Htr, <- app_assoc. reflexivity.
      * cbn [set_can_yield data uptime trace].
        unfold cooldown_invariant in Hinv. rewrite Hinv.
        cbn [app cooldown_respected is_deenergize is_energize wake_at].
        change (1 =? 0) with false. cbn [negb andb].
        replace (cooldown_deadline dev (trace w)
                 <=? Z.max (uptime w) (cooldown_deadline dev (trace w)))
          with true by (symmetry; apply Z.leb_le; lia).
        cbn [andb]. rewrite <- (app_nil_r notes).
        now rewrite (notes_respect_cooldown _ _ _ _ [] _ Hmap).
    + rewrite (pm_action_turn_off dev _ Hy). cbn zeta. cbn [snd].
      eapply Happ;
        [destruct (_ =? 0); cbn; rewrite <- app_assoc; reflexivity
        |reflexivity].
    + rewrite (pm_action_turn_on dev _ Hy). cbn zeta. cbn [snd].
      eapply Happ;
        [destruct (_ =? 0); cbn; rewrite <- app_assoc; reflexivity
        |reflexivity].
    + rewrite (pm_action_invalid dev _ _ Hy). exact Hok.
  - assert (Hy : can_yield (set_can_yield false w) = false) by reflexivity.
    rewrite (pm_action_cannot_yield dev a _ Hy). cbn [snd].
    eapply Happ; reflexivity.
  - exact Hok.
Qed.

(** X8: whatever the caller does after construction (any actions, from any
    context, with any time in between, on any port and with any dependents),
    no [gpio_pin_set_dt] call in the whole trace sets the enable pin active
    fewer than [k_us_to_ticks_ceil32 (off_on_delay_us)] ticks after the
    latest [gpio_pin_set_dt] call that set it inactive, nor, when there is
    none, before tick [k_us_to_ticks_ceil64 (off_on_delay_us)].  Only
    [gpio_pin_set_dt] calls count: a pin floated by [TURN_OFF] arms no
    cooldown. *)
Theorem rail_never_energized_early (dev : device) (rs : list request) :
  forall w,
    cooldown_invariant dev w ->
    never_energized_early dev (trace w) = true ->
    never_energized_early dev (trace (run dev rs w)) = true.
Proof.
  induction rs as [|r rs IH]; intros w Hinv Hok; [exact Hok|].
  cbn [run fold_left]. apply IH.
  - now apply step_invariant.
  - now apply step_never_energizes_early.
Qed.

(** ** The startup delay over whole runs *)

Lemma settle_respected_app (s : Z) (tr evs : list (Z * event)) :
  forall acc,
    settle_respected s acc (tr ++ evs) =
    settle_respected s acc tr &&
    settle_respected s (fold_left note_energize tr acc) evs.
Proof.
  induction tr as [|[t e] tr IH]; intros acc; [reflexivity|].
  cbn [app settle_respected fold_left].
  unfold note_energize at 2. cbn [fst snd].
  destruct (is_energize e); [exact (IH (Some t))|].
  destruct (is_turn_on_note e); [|exact (IH acc)].
  destruct acc as [t0|]; [|reflexivity].
  rewrite <- andb_assoc. f_equal. exact (IH (Some t0)).
Qed.

(** [TURN_ON] notifications that all come late enough. *)
Lemma notes_on_settled (cs : list device_ref) (s t0 lo : Z) :
  t0 + s <= lo ->
  forall notes,
    map snd notes =
      map (fun c => EvChildAction c PM_DEVICE_ACTION_TURN_ON) cs ->
    Forall (fun te => lo <= fst te) notes ->
    settle_respected s (Some t0) notes = true.
Proof.
  intros Hlo. induction cs as [|c cs IH]; intros [|[t e] notes] H Hall;
    cbn in H; try discriminate; [reflexivity|].
  injection H as He Hrest. subst e. inversion Hall as [|? ? Ht Hall']; subst.
  cbn in Ht. cbn [settle_respected is_energize is_turn_on_note].
  replace (t0 + s <=? t) with true by (symmetry; apply Z.leb_le; lia).
  cbn [andb]. now apply IH.
Qed.

(** [TURN_OFF] notifications do not count. *)
Lemma notes_off_settled (cs : list device_ref) (s : Z) (acc : option Z)
      (rest : list (Z * event)) :
  forall notes,
    map snd notes =
      map (fun c => EvChildAction c PM_DEVICE_ACTION_TURN_OFF) cs ->
    settle_respected s acc (notes ++ rest) = settle_respected s acc rest.
Proof.
  induction cs as [|c cs IH]; intros [|[t e] notes] H; cbn in H;
    try discriminate; [reflexivity|].
  injection H as He Hrest. subst e. cbn. now apply IH.
Qed.

Lemma step_never_notifies_early (dev : device) (w : world) (r : request) :
  never_notified_early dev (trace w) = true ->
  never_notified_early dev (trace (step dev w r)) = true.
Proof.
  intros Hok.
  assert (Happ : forall w' evs,
             trace w' = trace w ++ evs ->
             (forall acc,
                 settle_respected
                   (k_us_to_ticks_ceil64 (startup_delay_us (config dev)))
                   acc evs = true) ->
             never_notified_early dev (trace w') = true).
  { intros w' evs -> Hevs. unfold never_notified_early in *.
    now rewrite settle_respected_app, Hok, Hevs. }
  destruct r as [[|] a|n]; cbn [step].
  - assert (Hy : can_yield (set_can_yield true w) = true) by reflexivity.
    destruct a.
    + rewrite (pm_action_suspend dev _ Hy). cbn zeta. cbn [snd].
      destruct (children_action_run_spec
                  (children dev) PM_DEVICE_ACTION_TURN_OFF
                  (set_can_yield true w))
        as (notes & Hntr & Hmap & _).
      cbn zeta in Hntr.
      set (w1 := snd (children_action_run _ _ _)) in *.
      eapply Happ.
      * destruct (_ =? 0); cbn; rewrite Hntr, <- !app_assoc; reflexivity.
      * intros acc. rewrite (notes_off_settled _ _ _ _ _ Hmap). reflexivity.
    + destruct (pm_action_resume dev _ Hy) as (w0 & Heq & Htr & Hup & _).
      destruct (children_action_run_spec
                  (children dev) PM_DEVICE_ACTION_TURN_ON w0)
        as (notes & Hntr & Hmap & Hall & _).
      cbn zeta in Hntr, Hall. rewrite Heq. cbn [snd].
      eapply Happ.
      * rewrite Hntr, Htr, <- app_assoc. reflexivity.
      * intros acc.
        cbn [app settle_respected is_energize is_turn_on_note].
        change (1 =? 0) with false. cbn [negb].
        apply (notes_on_settled (children dev) _ _ (uptime w0));
          [|exact Hmap|].
        -- rewrite Hup. lia.
        -- eapply Forall_impl; [|exact Hall]. cbn. intros te Hte. lia.
    + rewrite (pm_action_turn_off dev _ Hy). cbn zeta. cbn [snd].
      eapply Happ;
        [destruct (_ =? 0); cbn; rewrite <- app_assoc; reflexivity
        |reflexivity].
    + rewrite (pm_action_turn_on dev _ Hy). cbn zeta. cbn [snd].
      eapply Happ;
        [destruct (_ =? 0); cbn; rewrite <- app_assoc; reflexivity
        |reflexivity].
    + rewrite (pm_action_invalid dev _ _ Hy). exact Hok.
  - assert (Hy : can_yield (set_can_yield false w) = false) by reflexivity.
    rewrite (pm_action_cannot_yield dev a _ Hy). cbn [snd].
    eapply Happ; reflexivity.
  - exact Hok.
Qed.

(** X9: whatever the caller does (any actions, from any context, with any
    time in between, on any port and with any dependents), no dependent is
    ever told [TURN_ON] before the enable pin was set active, nor less than
    the startup delay after the latest call that set it active. *)
Theorem dependents_never_notified_early (dev : device) (rs : list request) :
  forall w,
    never_notified_early dev (trace w) = true ->
    never_notified_early dev (trace (run dev rs w)) = true.
Proof.
  induction rs as [|r rs IH]; intros w Hok; [exact Hok|].
  cbn [run fold_left]. apply IH. now apply step_never_notifies_early.
Qed.

(** ** The cooldown where it fits 32 bits of ticks *)

(** X10: where the cooldown in ticks fits the 32-bit conversion, a [RESUME]
    that follows a [SUSPEND] completed at uptime [T], with no other
    completed [SUSPEND] in between, sets the enable pin active exactly once,
    at the later of its own start and [T] plus the cooldown in ticks: never
    before the whole cooldown, in microseconds, has passed since [T], and
    without any wait when it starts after that. *)
Theorem cooldown_enforced_in_range (dev : device) (w : world)
        (between : list request) :
  can_yield w = true ->
  forallb (fun r => negb (completes_suspend r)) between = true ->
  0 <= us_to_ticks_ceil (off_on_delay_us (config dev)) < 2 ^ 32 ->
  let w1 := snd (pd_gpio_pm_action dev PM_DEVICE_ACTION_SUSPEND w) in
  let T := uptime w1 in
  let delay_us := off_on_delay_us (config dev) in
  let cooldown := us_to_ticks_ceil delay_us in
  let w2 := set_can_yield true (run dev between w1) in
  let w3 := snd (pd_gpio_pm_action dev PM_DEVICE_ACTION_RESUME w2) in
  exists t_on,
    gpio_calls (emitted w2 w3) = [(t_on, EvGpio (GpioSet 1))] /\
    t_on = Z.max (uptime w2) (T + cooldown) /\
    T + cooldown <= t_on /\
    (T + cooldown <= uptime w2 -> t_on = uptime w2) /\
    delay_us * CONFIG_SYS_CLOCK_TICKS_PER_SEC <= (t_on - T) * 1000000.
Proof.
  intros Hy Hbetween Hfit w1 T delay_us cooldown w2 w3.
  assert (Hy2 : can_yield w2 = true) by reflexivity.
  assert (Hc : k_us_to_ticks_ceil32 delay_us = cooldown)
    by (unfold k_us_to_ticks_ceil32; now apply Z.mod_small).
  assert (Hnb : next_boot (data w2) = K_TIMEOUT_ABS_TICKS (T + cooldown)).
  { subst w2. cbn [data set_can_yield].
    rewrite (run_quiet dev between w1 Hbetween).
    destruct (suspend_emitted dev w Hy) as (_ & _ & _ & Hnb).
    cbn zeta in Hnb. fold w1 T delay_us in Hnb. now rewrite Hc in Hnb. }
  destruct (resume_emitted dev w2 Hy2) as (notes & Hem & Hmap & _).
  cbn zeta in Hem. fold w3 in Hem.
  rewrite Hnb in Hem. cbn [wake_at] in Hem.
  exists (Z.max (uptime w2) (T + cooldown)).
  split; [|split; [reflexivity|split; [lia|split; [lia|]]]].
  - rewrite Hem. unfold gpio_calls at 1. rewrite filter_app.
    fold (gpio_calls notes). rewrite (notes_no_gpio _ _ _ Hmap). reflexivity.
  - pose proof (us_to_ticks_ceil_covers delay_us) as Hcov.
    fold cooldown in Hcov. lia.
Qed.

End MoreProperties.

(** * The further properties on the sample boards *)

Lemma turn_on_configures_output_witness :
  can_yield constructed = true /\
  exists flags,
    gpio_calls
      (emitted constructed
               (snd (pd_gpio_pm_action (P := board) rail
                                       PM_DEVICE_ACTION_TURN_ON constructed))) =
      [(uptime constructed, EvGpio (GpioConfigure flags))] /\
    Z.land flags (@GPIO_DS_ALT board) = @GPIO_DS_ALT board.
Proof.
  split; [reflexivity|].
  destruct (turn_on_configures_output (P := board) rail constructed eq_refl)
    as (flags & Hcalls & _ & Hds & _).
  exists flags. split; [exact Hcalls|exact (Hds eq_refl)].
Defined.

Lemma configure_steps_do_not_block_witness :
  can_yield powered_on = true /\
  uptime (snd (pd_gpio_pm_action (P := board) rail
                                 PM_DEVICE_ACTION_TURN_ON powered_on)) =
  uptime powered_on /\
  pin_level powered_on = true /\
  pin_level (snd (pd_gpio_pm_action (P := board) rail
                                    PM_DEVICE_ACTION_TURN_ON powered_on)) =
  false.
Proof.
  split; [reflexivity|].
  destruct (configure_steps_do_not_block
              (P := board) rail PM_DEVICE_ACTION_TURN_ON powered_on
              eq_refl (or_introl eq_refl))
    as (Hup & _ & _ & _ & _ & _ & _ & Hlvl).
  split; [exact Hup|]. split; [reflexivity|].
  rewrite (Hlvl eq_refl). vm_compute. reflexivity.
Defined.

Lemma only_resume_sleeps_witness :
  can_yield driven_off = true /\
  sleeps (emitted driven_off
                  (snd (pd_gpio_pm_action (P := board) rail
                                          PM_DEVICE_ACTION_RESUME driven_off))) =
    [(0, EvSleep (K_TIMEOUT_ABS_TICKS 50)); (50, EvSleep (K_TICKS 10))] /\
  sleeps (emitted driven_off
                  (snd (pd_gpio_pm_action (P := board) rail
                                          PM_DEVICE_ACTION_SUSPEND driven_off)))
  = [].
Proof.
  split; [reflexivity|].
  destruct (only_resume_sleeps (P := board) rail driven_off eq_refl)
    as (Hon & _ & _ & Hoff & _).
  split; [exact Hon|exact Hoff].
Defined.

Lemma resume_notifies_whatever_the_port_witness :
  can_yield driven_off = true /\
  fst (pd_gpio_pm_action (P := faulty_board) rail
                         PM_DEVICE_ACTION_RESUME driven_off) = 0 /\
  pin_level (snd (pd_gpio_pm_action (P := faulty_board) rail
                                    PM_DEVICE_ACTION_RESUME driven_off)) =
  false /\
  notifications
    (emitted driven_off
             (snd (pd_gpio_pm_action (P := faulty_board) rail
                                     PM_DEVICE_ACTION_RESUME driven_off))) =
  [EvChildAction "d1" PM_DEVICE_ACTION_TURN_ON;
   EvChildAction "d2" PM_DEVICE_ACTION_TURN_ON].
Proof.
  split; [reflexivity|].
  destruct (resume_notifies_whatever_the_port
              (P := faulty_board) rail driven_off eq_refl)
    as (Hrc & Hlvl & Hnotes).
  split; [exact Hrc|]. split; [|exact Hnotes].
  rewrite Hlvl. vm_compute. reflexivity.
Defined.


Lemma init_cannot_yield_skips_disconnect_witness :
  can_yield boot_in_isr = false /\
  exists w0,
    pd_gpio_init (P := board) rail boot_in_isr = (0, w0) /\
    next_boot (data w0) = K_TIMEOUT_ABS_TICKS 50 /\
    pin_flags w0 = pin_flags boot_in_isr.
Proof.
  split; [reflexivity|].
  destruct (init_cannot_yield_skips_disconnect
              (P := board) rail boot_in_isr eq_refl eq_refl eq_refl)
    as (w0 & Heq & Hnb & _ & Hpf & _).
  exists w0. split; [exact Heq|]. split; [exact Hnb|exact Hpf].
Defined.

Lemma valid_runs_follow_table_witness :
  (observed_state (P := board) constructed = DISCONNECTED ->
   pin_level constructed = false) /\
  spec_run (observed_state (P := board) constructed)
           [PM_DEVICE_ACTION_TURN_ON; PM_DEVICE_ACTION_RESUME;
            PM_DEVICE_ACTION_SUSPEND; PM_DEVICE_ACTION_TURN_OFF] =
  Some DISCONNECTED /\
  observed_state (P := board)
    (run (P := board) rail
         (map (Call true)
              [PM_DEVICE_ACTION_TURN_ON; PM_DEVICE_ACTION_RESUME;
               PM_DEVICE_ACTION_SUSPEND; PM_DEVICE_ACTION_TURN_OFF])
         constructed) = DISCONNECTED.
Proof.
  split; [intros _; reflexivity|]. split; [reflexivity|].
  assert (Hflags : turn_on_flags (P := board) rail
                   <> @GPIO_DISCONNECTED board)
    by (vm_compute; discriminate).
  exact (valid_runs_follow_table
           (P := board) rail
           [PM_DEVICE_ACTION_TURN_ON; PM_DEVICE_ACTION_RESUME;
            PM_DEVICE_ACTION_SUSPEND; PM_DEVICE_ACTION_TURN_OFF]
           constructed DISCONNECTED
           (fun _ _ => eq_refl) Hflags (fun _ => eq_refl) eq_refl).
Defined.

Lemma rail_never_energized_early_witness :
  cooldown_invariant (P := board) rail constructed /\
  never_energized_early (P := board) rail (trace constructed) = true /\
  never_energized_early (P := board) rail
    (trace (run (P := board) rail
                [Call true PM_DEVICE_ACTION_TURN_ON;
                 Call true PM_DEVICE_ACTION_RESUME;
                 Call true PM_DEVICE_ACTION_SUSPEND;
                 Call false PM_DEVICE_ACTION_RESUME;
                 Call true PM_DEVICE_ACTION_RESUME;
                 Elapse 2;
                 Call true PM_DEVICE_ACTION_RESUME] constructed)) = true.
Proof.
  split; [reflexivity|]. split; [reflexivity|].
  exact (rail_never_energized_early (P := board) rail _ constructed
                                    eq_refl eq_refl).
Defined.

Lemma dependents_never_notified_early_witness :
  never_notified_early (P := faulty_board) rail (trace constructed) = true /\
  never_notified_early (P := faulty_board) rail
    (trace (run (P := faulty_board) rail
                [Call true PM_DEVICE_ACTION_RESUME;
                 Call true PM_DEVICE_ACTION_SUSPEND;
                 Call true PM_DEVICE_ACTION_TURN_ON;
                 Call true PM_DEVICE_ACTION_RESUME] constructed)) = true.
Proof.
  split; [reflexivity|].
  exact (dependents_never_notified_early (P := faulty_board) rail _
                                         constructed eq_refl).
Defined.

Lemma cooldown_enforced_in_range_witness :
  can_yield powered_on = true /\
  forallb (fun r => negb (completes_suspend r)) [Elapse 5] = true /\
  0 <= us_to_ticks_ceil (P := board) (off_on_delay_us (config rail)) < 2 ^ 32
  /\
  exists t_on,
    gpio_calls
      (emitted
         (set_can_yield true
            (run (P := board) rail [Elapse 5]
                 (snd (pd_gpio_pm_action (P := board) rail
                                         PM_DEVICE_ACTION_SUSPEND powered_on))))
         (snd (pd_gpio_pm_action (P := board) rail PM_DEVICE_ACTION_RESUME
                 (set_can_yield true
                    (run (P := board) rail [Elapse 5]
                         (snd (pd_gpio_pm_action (P := board) rail
                                 PM_DEVICE_ACTION_SUSPEND powered_on))))))) =
      [(t_on, EvGpio (GpioSet 1))] /\
    t_on = 60 + 50.
Proof.
  assert (Hfit : 0 <= us_to_ticks_ceil (P := board)
                        (off_on_delay_us (config rail)) < 2 ^ 32)
    by (vm_compute; split; [intros H; discriminate H|reflexivity]).
  split; [reflexivity|]. split; [reflexivity|]. split; [exact Hfit|].
  destruct (cooldown_enforced_in_range (P := board) rail powered_on [Elapse 5]
                                       eq_refl eq_refl Hfit)
    as (t_on & Hcalls & Ht & _).
  exists t_on. split; [exact Hcalls|].
  rewrite Ht. vm_compute. reflexivity.
Defined.
